(** * Build orchestration of integration kits

    A shallow embedding of the kit controller's actions
    ([pkg/controller/integrationkit]): the initialize action, the build
    action with its two sub-phases, and the notification of dependent
    integrations.  Handlers are written in a state-and-error monad over a
    [World] that holds the resource store, the kit object the handler was
    called with, and a trace of the calls made to collaborators. *)

From stdpp Require Import gmap strings list fin_maps.

Local Open Scope string_scope.

(** ** Resources (package v1alpha1) *)

Record ObjectMeta := mkObjectMeta {
  Namespace : string;
  Name : string;
  OwnerReferences : list (string * string)
}.

Record TypeMeta := mkTypeMeta { APIVersion : string; Kind : string }.

Record Artifact := { ID : string; Location : string; Target : string }.

Record Failure := { Reason : string }.

Record IntegrationPlatformSpec := {
  Cluster : string;
  PublishStrategy : string;
  Registry : string
}.

Record IntegrationPlatform := { Platform_Spec : IntegrationPlatformSpec }.

Record IntegrationKitSpec := {
  KitSpec_Image : string;
  KitSpec_Dependencies : list string
}.

Record IntegrationKitStatus := {
  KitStatus_Phase : string;
  KitStatus_BaseImage : string;
  KitStatus_Image : string;
  KitStatus_PublicImage : string;
  KitStatus_Digest : string;
  KitStatus_Artifacts : list Artifact;
  KitStatus_Failure : option Failure
}.

Record IntegrationKit := {
  Kit_ObjectMeta : ObjectMeta;
  Kit_Spec : IntegrationKitSpec;
  Kit_Status : IntegrationKitStatus
}.

Record BuildSpec := {
  BuildSpec_Meta : ObjectMeta;
  BuildSpec_CamelVersion : string;
  BuildSpec_RuntimeVersion : string;
  BuildSpec_Platform : IntegrationPlatformSpec;
  BuildSpec_Dependencies : list string;
  BuildSpec_Steps : list string;
  BuildSpec_BuildDir : string
}.

Record BuildStatus := {
  BuildStatus_Phase : string;
  BuildStatus_Image : string;
  BuildStatus_BaseImage : string;
  BuildStatus_PublicImage : string;
  BuildStatus_Error : string;
  BuildStatus_Failure : option Failure;
  BuildStatus_Artifacts : list Artifact
}.

Record Build := {
  Build_TypeMeta : TypeMeta;
  Build_ObjectMeta : ObjectMeta;
  Build_Spec : BuildSpec;
  Build_Status : BuildStatus
}.

Record IntegrationStatus := {
  IntegrationStatus_Phase : string;
  IntegrationStatus_Kit : string
}.

Record Integration := {
  Integration_ObjectMeta : ObjectMeta;
  Integration_Status : IntegrationStatus
}.

(** Modelled from the spec: the phase constants are declared in the
    v1alpha1 types, in another file of the package.  Phases are strings in the
    code; the values below are the state names of the spec, and the unset
    phase is the empty string. *)
Definition IntegrationKitPhaseNone : string := "".
Definition IntegrationKitPhaseBuildSubmitted : string := "BuildSubmitted".
Definition IntegrationKitPhaseBuildRunning : string := "BuildRunning".
Definition IntegrationKitPhaseReady : string := "Ready".
Definition IntegrationKitPhaseError : string := "Error".

Definition BuildPhaseNone : string := "".
Definition BuildPhaseRunning : string := "Running".
Definition BuildPhaseSucceeded : string := "Succeeded".
Definition BuildPhaseInterrupted : string := "Interrupted".
Definition BuildPhaseError : string := "Error".

Definition IntegrationPhaseResolvingKit : string := "ResolvingKit".

(** Zero values, as [&v1alpha1.Build{}] allocates them. *)
Definition ObjectMeta_zero : ObjectMeta :=
  {| Namespace := ""; Name := ""; OwnerReferences := [] |}.

Definition IntegrationPlatformSpec_zero : IntegrationPlatformSpec :=
  {| Cluster := ""; PublishStrategy := ""; Registry := "" |}.

Definition BuildStatus_zero : BuildStatus :=
  {| BuildStatus_Phase := ""; BuildStatus_Image := "";
     BuildStatus_BaseImage := ""; BuildStatus_PublicImage := "";
     BuildStatus_Error := ""; BuildStatus_Failure := None;
     BuildStatus_Artifacts := [] |}.

Definition Build_zero : Build :=
  {| Build_TypeMeta := {| APIVersion := ""; Kind := "" |};
     Build_ObjectMeta := ObjectMeta_zero;
     Build_Spec :=
       {| BuildSpec_Meta := ObjectMeta_zero; BuildSpec_CamelVersion := "";
          BuildSpec_RuntimeVersion := "";
          BuildSpec_Platform := IntegrationPlatformSpec_zero;
          BuildSpec_Dependencies := []; BuildSpec_Steps := [];
          BuildSpec_BuildDir := "" |};
     Build_Status := BuildStatus_zero |}.

(** Identity of a resource in the store: (namespace, name). *)
Definition ident (m : ObjectMeta) : string * string := (Namespace m, Name m).

(** Field assignments on the kit status ([target.Status.X = v]). *)
Definition set_Kit_Status (st : IntegrationKitStatus) (k : IntegrationKit)
  : IntegrationKit :=
  {| Kit_ObjectMeta := Kit_ObjectMeta k; Kit_Spec := Kit_Spec k;
     Kit_Status := st |}.

Definition set_KitStatus_Phase (p : string) (st : IntegrationKitStatus)
  : IntegrationKitStatus :=
  {| KitStatus_Phase := p; KitStatus_BaseImage := KitStatus_BaseImage st;
     KitStatus_Image := KitStatus_Image st;
     KitStatus_PublicImage := KitStatus_PublicImage st;
     KitStatus_Digest := KitStatus_Digest st;
     KitStatus_Artifacts := KitStatus_Artifacts st;
     KitStatus_Failure := KitStatus_Failure st |}.

Definition set_KitStatus_Image (i : string) (st : IntegrationKitStatus)
  : IntegrationKitStatus :=
  {| KitStatus_Phase := KitStatus_Phase st;
     KitStatus_BaseImage := KitStatus_BaseImage st;
     KitStatus_Image := i;
     KitStatus_PublicImage := KitStatus_PublicImage st;
     KitStatus_Digest := KitStatus_Digest st;
     KitStatus_Artifacts := KitStatus_Artifacts st;
     KitStatus_Failure := KitStatus_Failure st |}.

Definition set_KitStatus_Digest (d : string) (st : IntegrationKitStatus)
  : IntegrationKitStatus :=
  {| KitStatus_Phase := KitStatus_Phase st;
     KitStatus_BaseImage := KitStatus_BaseImage st;
     KitStatus_Image := KitStatus_Image st;
     KitStatus_PublicImage := KitStatus_PublicImage st;
     KitStatus_Digest := d;
     KitStatus_Artifacts := KitStatus_Artifacts st;
     KitStatus_Failure := KitStatus_Failure st |}.

Definition set_KitStatus_Failure (f : option Failure)
  (st : IntegrationKitStatus) : IntegrationKitStatus :=
  {| KitStatus_Phase := KitStatus_Phase st;
     KitStatus_BaseImage := KitStatus_BaseImage st;
     KitStatus_Image := KitStatus_Image st;
     KitStatus_PublicImage := KitStatus_PublicImage st;
     KitStatus_Digest := KitStatus_Digest st;
     KitStatus_Artifacts := KitStatus_Artifacts st;
     KitStatus_Failure := f |}.

Definition set_Kit_Phase (p : string) (k : IntegrationKit) : IntegrationKit :=
  set_Kit_Status (set_KitStatus_Phase p (Kit_Status k)) k.

Definition set_Integration_Phase (p : string) (i : Integration) : Integration :=
  {| Integration_ObjectMeta := Integration_ObjectMeta i;
     Integration_Status :=
       {| IntegrationStatus_Phase := p;
          IntegrationStatus_Kit := IntegrationStatus_Kit (Integration_Status i) |} |}.

(** ** Errors *)

(** [ErrNotFound] and [ErrAlreadyExists] are the store's status errors,
    [ErrTransient] any other store failure, [ErrNew] an error made by
    [errors.New] or [fmt.Errorf], [ErrWrap] the result of [errors.Wrap], and
    [ErrPanic] a run-time panic (a nil dereference), which unwinds the
    handler as an error return does. *)
Inductive error :=
| ErrNotFound
| ErrAlreadyExists
| ErrTransient (msg : string)
| ErrNew (msg : string)
| ErrWrap (cause : error) (msg : string)
| ErrPanic (msg : string).

Inductive Result (A : Type) :=
| Ok (a : A)
| Err (e : error).
Arguments Ok {A} a.
Arguments Err {A} e.

(** [k8serrors.IsNotFound]. *)
Definition IsNotFound (e : error) : bool :=
  match e with ErrNotFound => true | _ => false end.

Definition is_Err {A} (r : Result A) : option error :=
  match r with Ok _ => None | Err e => Some e end.

(** ** The world a handler runs in *)

(** What the surroundings do during one round-trip to the store: the call
    may fail for a reason of the store's own, and the kit object the
    handler holds a pointer to may have its phase edited meanwhile. *)
Record Ambient := {
  fault : option string;
  edit : option string
}.

Inductive Call :=
| CallGetBuild (id : string * string)
| CallDeleteBuild (id : string * string)
| CallCreateBuild (b : Build)
| CallUpdateKit (k : IntegrationKit)
| CallStatusUpdateKit (k : IntegrationKit)
| CallListIntegrations (ns : string)
| CallStatusUpdateIntegration (i : Integration)
| CallApply (k : IntegrationKit).

Record World := {
  builds : gmap (string * string) Build;
  kits : gmap (string * string) IntegrationKit;
  integrations : gmap (string * string) Integration;
  scheme : bool;
  kit_obj : IntegrationKit;
  ambient : list Ambient;
  log : list (Call * option error)
}.

Definition M (A : Type) : Type := World -> Result A * World.

Definition ret {A} (a : A) : M A := fun w => (Ok a, w).

Definition fail {A} (e : error) : M A := fun w => (Err e, w).

Definition bind {A B} (m : M A) (f : A -> M B) : M B :=
  fun w => match m w with
           | (Ok a, w') => f a w'
           | (Err e, w') => (Err e, w')
           end.

(** [attempt m] runs [m] and hands its outcome to the caller, as Go code
    does when it binds [err] and inspects it. *)
Definition attempt {A} (m : M A) : M (Result A) :=
  fun w => let (r, w') := m w in (Ok r, w').

Definition lift {A} (r : Result A) : M A := fun w => (r, w).

Declare Scope action_scope.
Delimit Scope action_scope with action.
Notation "x <- c ;; k" := (bind c (fun x => k))
  (at level 100, c at next level, right associativity) : action_scope.
Local Open Scope action_scope.

(** Field assignments on the world. *)
Definition with_builds (bs : gmap (string * string) Build) (w : World) : World :=
  {| builds := bs; kits := kits w; integrations := integrations w;
     scheme := scheme w; kit_obj := kit_obj w; ambient := ambient w;
     log := log w |}.

Definition with_kits (ks : gmap (string * string) IntegrationKit) (w : World)
  : World :=
  {| builds := builds w; kits := ks; integrations := integrations w;
     scheme := scheme w; kit_obj := kit_obj w; ambient := ambient w;
     log := log w |}.

Definition with_integrations (ints : gmap (string * string) Integration)
  (w : World) : World :=
  {| builds := builds w; kits := kits w; integrations := ints;
     scheme := scheme w; kit_obj := kit_obj w; ambient := ambient w;
     log := log w |}.

Definition with_kit_obj (k : IntegrationKit) (w : World) : World :=
  {| builds := builds w; kits := kits w; integrations := integrations w;
     scheme := scheme w; kit_obj := k; ambient := ambient w; log := log w |}.

Definition with_ambient (a : list Ambient) (w : World) : World :=
  {| builds := builds w; kits := kits w; integrations := integrations w;
     scheme := scheme w; kit_obj := kit_obj w; ambient := a; log := log w |}.

Definition record (c : Call) (o : option error) (w : World) : World :=
  {| builds := builds w; kits := kits w; integrations := integrations w;
     scheme := scheme w; kit_obj := kit_obj w; ambient := ambient w;
     log := log w ++ [(c, o)] |}.

(** Reading through the [kit] pointer the handler was called with. *)
Definition deref : M IntegrationKit := fun w => (Ok (kit_obj w), w).

(** ** The resource store *)

(** Modelled from the spec: the typed client ([action.client]) is an
    external collaborator.  Resources are identified by (namespace, name);
    Get and Delete of an absent resource and a write to an absent resource
    answer not-found, Create of a present one answers already-exists, a
    status update replaces the stored status only, and List is scoped to a
    namespace.  A write refused for optimistic concurrency is one of the
    ambient faults. *)
Definition apply_edit (e : option string) (k : IntegrationKit) : IntegrationKit :=
  match e with
  | Some p => set_Kit_Phase p k
  | None => k
  end.

Definition step_ambient (w : World) : option string * World :=
  match ambient w with
  | [] => (None, w)
  | a :: rest =>
      (fault a, with_ambient rest (with_kit_obj (apply_edit (edit a) (kit_obj w)) w))
  end.

Definition roundtrip {A} (c : Call) (op : World -> Result A * World) : M A :=
  fun w =>
    let (f, w1) := step_ambient w in
    let (r, w2) := match f with
                   | Some msg => (Err (ErrTransient msg), w1)
                   | None => op w1
                   end in
    (r, record c (is_Err r) w2).

Definition store_Get_Build (id : string * string) (w : World)
  : Result Build * World :=
  match builds w !! id with
  | Some b => (Ok b, w)
  | None => (Err ErrNotFound, w)
  end.

Definition store_Delete_Build (id : string * string) (w : World)
  : Result unit * World :=
  match builds w !! id with
  | Some _ => (Ok tt, with_builds (delete id (builds w)) w)
  | None => (Err ErrNotFound, w)
  end.

Definition store_Create_Build (b : Build) (w : World) : Result unit * World :=
  match builds w !! ident (Build_ObjectMeta b) with
  | Some _ => (Err ErrAlreadyExists, w)
  | None => (Ok tt, with_builds (<[ident (Build_ObjectMeta b) := b]> (builds w)) w)
  end.

Definition store_Update_Kit (k : IntegrationKit) (w : World)
  : Result unit * World :=
  match kits w !! ident (Kit_ObjectMeta k) with
  | Some old =>
      (Ok tt, with_kits (<[ident (Kit_ObjectMeta k) :=
                             set_Kit_Status (Kit_Status old) k]> (kits w)) w)
  | None => (Err ErrNotFound, w)
  end.

Definition store_StatusUpdate_Kit (k : IntegrationKit) (w : World)
  : Result unit * World :=
  match kits w !! ident (Kit_ObjectMeta k) with
  | Some old =>
      (Ok tt, with_kits (<[ident (Kit_ObjectMeta k) :=
                             set_Kit_Status (Kit_Status k) old]> (kits w)) w)
  | None => (Err ErrNotFound, w)
  end.

Definition in_namespace (ns : string) (i : Integration) : Prop :=
  Namespace (Integration_ObjectMeta i) = ns.

#[global] Instance in_namespace_dec ns i : Decision (in_namespace ns i).
Proof. unfold in_namespace. apply _. Defined.

Definition store_List_Integrations (ns : string) (w : World)
  : Result (list Integration) * World :=
  (Ok (filter (in_namespace ns) (map_to_list (integrations w)).*2), w).

Definition store_StatusUpdate_Integration (i : Integration) (w : World)
  : Result unit * World :=
  match integrations w !! ident (Integration_ObjectMeta i) with
  | Some old =>
      (Ok tt,
       with_integrations
         (<[ident (Integration_ObjectMeta i) :=
              {| Integration_ObjectMeta := Integration_ObjectMeta old;
                 Integration_Status := Integration_Status i |}]>
            (integrations w)) w)
  | None => (Err ErrNotFound, w)
  end.

Definition client_Get_Build (id : string * string) : M Build :=
  roundtrip (CallGetBuild id) (store_Get_Build id).

Definition client_Delete_Build (b : Build) : M unit :=
  roundtrip (CallDeleteBuild (ident (Build_ObjectMeta b)))
            (store_Delete_Build (ident (Build_ObjectMeta b))).

Definition client_Create_Build (b : Build) : M unit :=
  roundtrip (CallCreateBuild b) (store_Create_Build b).

Definition client_Update_Kit (k : IntegrationKit) : M unit :=
  roundtrip (CallUpdateKit k) (store_Update_Kit k).

Definition client_StatusUpdate_Kit (k : IntegrationKit) : M unit :=
  roundtrip (CallStatusUpdateKit k) (store_StatusUpdate_Kit k).

Definition client_List_Integrations (ns : string) : M (list Integration) :=
  roundtrip (CallListIntegrations ns) (store_List_Integrations ns).

Definition client_StatusUpdate_Integration (i : Integration) : M unit :=
  roundtrip (CallStatusUpdateIntegration i) (store_StatusUpdate_Integration i).

(** Modelled from the spec: [controllerutil.SetControllerReference] is a
    library call.  It records the kit as owner and controller in the
    metadata of the new Build, and fails when the client's scheme does not
    know the owner's kind. *)
Definition SetControllerReference (owner : IntegrationKit) (b : Build) : M Build :=
  fun w =>
    if scheme w then
      (Ok {| Build_TypeMeta := Build_TypeMeta b;
             Build_ObjectMeta :=
               {| Namespace := Namespace (Build_ObjectMeta b);
                  Name := Name (Build_ObjectMeta b);
                  OwnerReferences :=
                    OwnerReferences (Build_ObjectMeta b)
                    ++ [("IntegrationKit", Name (Kit_ObjectMeta owner))] |};
             Build_Spec := Build_Spec b;
             Build_Status := Build_Status b |}, w)
    else (Err (ErrNew "no kind is registered for the owner type"), w).

(** ** The build environment (package trait) and steps (package builder) *)

Record Step := { Step_ID : string; Step_Phase : nat }.

Record CamelCatalog := { Version : string }.

Record Environment := {
  Env_CamelCatalog : option CamelCatalog;
  Env_RuntimeVersion : string;
  Env_Platform : option IntegrationPlatform;
  Env_Steps : list Step;
  Env_BuildDir : string
}.

(** Modelled from the spec: [builder.StepIDsFor] projects the ordered steps
    to their identifiers. *)
Definition StepIDsFor (steps : list Step) : list string := map Step_ID steps.

(** ** The actions (package integrationkit) *)

Section Actions.

(** Collaborators from other packages.  [trait.Apply]
    composes the pipeline for a kit: it reads the world, may change the kit
    it is given, and answers an environment or an error.
    [platform.GetCurrentPlatform] looks the platform of a namespace up, and
    [digest.ComputeForIntegrationKit] hashes a kit. *)
Variable trait_Apply :
  World -> option Integration -> IntegrationKit ->
  Result Environment * IntegrationKit.
Variable GetCurrentPlatform : World -> string -> Result IntegrationPlatform.
Variable ComputeForIntegrationKit : IntegrationKit -> Result string.

Definition trait_Apply_call (k : IntegrationKit)
  : M (Result Environment * IntegrationKit) :=
  fun w =>
    let r := trait_Apply w None k in
    (Ok r, record (CallApply k) (is_Err (fst r)) w).

Definition assign_kit (k : IntegrationKit) : M unit :=
  fun w => (Ok tt, with_kit_obj k w).

(** *** initializeAction *)

Definition initializeAction_CanHandle (kit : IntegrationKit) : bool :=
  String.eqb (KitStatus_Phase (Kit_Status kit)) "".

(** The branch on [target.Spec.Image]: a kit is built by default, and is
    ready at once when it was created from an image. *)
Definition first_phase (target : IntegrationKit) : IntegrationKit :=
  if String.eqb (KitSpec_Image (Kit_Spec target)) "" then
    set_Kit_Phase IntegrationKitPhaseBuildSubmitted target
  else
    set_Kit_Status
      (set_KitStatus_Image (KitSpec_Image (Kit_Spec target))
         (set_KitStatus_Phase IntegrationKitPhaseReady (Kit_Status target)))
      target.

Definition initializeAction_Handle : M unit :=
  kit <- deref ;;
  fun w =>
    match GetCurrentPlatform w (Namespace (Kit_ObjectMeta kit)) with
    | Err _ => ret tt w
    | Ok _ =>
        (applied <- trait_Apply_call kit ;;
         let target := snd applied in
         _ <- lift (fst applied) ;;
         _ <- client_Update_Kit target ;;
         let target := first_phase target in
         dgst <- lift (ComputeForIntegrationKit target) ;;
         let target :=
           set_Kit_Status (set_KitStatus_Digest dgst (Kit_Status target)) target in
         client_StatusUpdate_Kit target) w
    end.

(** *** buildAction *)

Definition buildAction_CanHandle (kit : IntegrationKit) : bool :=
  String.eqb (KitStatus_Phase (Kit_Status kit)) IntegrationKitPhaseBuildSubmitted
  || String.eqb (KitStatus_Phase (Kit_Status kit)) IntegrationKitPhaseBuildRunning.

(** The loop of [informIntegrations] over the listed items. *)
Fixpoint informLoop (name : string) (items : list Integration) : M unit :=
  match items with
  | [] => ret tt
  | integration :: rest =>
      if negb (String.eqb (IntegrationStatus_Kit (Integration_Status integration)) name)
      then informLoop name rest
      else
        _ <- client_StatusUpdate_Integration
               (set_Integration_Phase IntegrationPhaseResolvingKit integration) ;;
        informLoop name rest
  end.

Definition informIntegrations (kit : IntegrationKit) : M unit :=
  items <- client_List_Integrations (Namespace (Kit_ObjectMeta kit)) ;;
  informLoop (Name (Kit_ObjectMeta kit)) items.

(** The condition under which [handleBuildSubmitted] builds anew. *)
Definition rebuild_wanted (r : Result Build) : bool :=
  match r with
  | Err e => IsNotFound e
  | Ok build =>
      String.eqb (BuildStatus_Phase (Build_Status build)) BuildPhaseError
      || String.eqb (BuildStatus_Phase (Build_Status build)) BuildPhaseInterrupted
      || String.eqb (BuildStatus_Phase (Build_Status build)) BuildPhaseSucceeded
  end.

Definition new_Build (kit : IntegrationKit) (catalog : CamelCatalog)
  (env : Environment) (platform : IntegrationPlatform) : Build :=
  {| Build_TypeMeta := {| APIVersion := "camel.apache.org/v1alpha1"; Kind := "Build" |};
     Build_ObjectMeta :=
       {| Namespace := Namespace (Kit_ObjectMeta kit);
          Name := Name (Kit_ObjectMeta kit);
          OwnerReferences := [] |};
     Build_Spec :=
       {| BuildSpec_Meta := Kit_ObjectMeta kit;
          BuildSpec_CamelVersion := Version catalog;
          BuildSpec_RuntimeVersion := Env_RuntimeVersion env;
          BuildSpec_Platform := Platform_Spec platform;
          BuildSpec_Dependencies := KitSpec_Dependencies (Kit_Spec kit);
          BuildSpec_Steps := StepIDsFor (Env_Steps env);
          BuildSpec_BuildDir := Env_BuildDir env |};
     Build_Status := BuildStatus_zero |}.

(** The body of the branch of [handleBuildSubmitted] that builds anew: it
    composes the pipeline on the kit, assembles the Build, sets the kit as
    its owner, deletes the Build of that identity and creates the new one.
    It answers the Build in hand. *)
Definition triggerBuild : M Build :=
  kit <- deref ;;
  applied <- trait_Apply_call kit ;;
  _ <- assign_kit (snd applied) ;;
  env <- lift (fst applied) ;;
  match Env_CamelCatalog env with
  | None => fail (ErrNew "undefined camel catalog")
  | Some catalog =>
      kit <- deref ;;
      platform <-
        match Env_Platform env with
        | Some p => ret p
        | None => fail (ErrPanic "nil pointer dereference")
        end ;;
      build <- SetControllerReference kit (new_Build kit catalog env platform) ;;
      deleted <- attempt (client_Delete_Build build) ;;
      _ <- match deleted with
           | Err e =>
               if negb (IsNotFound e)
               then fail (ErrWrap e "cannot delete build")
               else ret tt
           | Ok _ => ret tt
           end ;;
      created <- attempt (client_Create_Build build) ;;
      _ <- match created with
           | Err e => fail (ErrWrap e "cannot create build")
           | Ok _ => ret tt
           end ;;
      ret build
  end.

Definition handleBuildSubmitted : M unit :=
  kit <- deref ;;
  got <- attempt (client_Get_Build (ident (Kit_ObjectMeta kit))) ;;
  _ <- match got with
       | Err e => if negb (IsNotFound e) then fail e else ret tt
       | Ok _ => ret tt
       end ;;
  let build := match got with Ok b => b | Err _ => Build_zero end in
  build <- (if rebuild_wanted got then triggerBuild else ret build) ;;
  if String.eqb (BuildStatus_Phase (Build_Status build)) BuildPhaseRunning then
    kit <- deref ;;
    client_StatusUpdate_Kit (set_Kit_Phase IntegrationKitPhaseBuildRunning kit)
  else ret tt.

Definition strip_location (a : Artifact) : Artifact :=
  {| ID := ID a; Location := ""; Target := Target a |}.

(** The kit status [handleBuildRunning] assembles from a succeeded Build. *)
Definition ready_target (target : IntegrationKit) (build : Build) : IntegrationKit :=
  set_Kit_Status
    {| KitStatus_Phase := IntegrationKitPhaseReady;
       KitStatus_BaseImage := BuildStatus_BaseImage (Build_Status build);
       KitStatus_Image := BuildStatus_Image (Build_Status build);
       KitStatus_PublicImage := BuildStatus_PublicImage (Build_Status build);
       KitStatus_Digest := KitStatus_Digest (Kit_Status target);
       KitStatus_Artifacts :=
         map strip_location (BuildStatus_Artifacts (Build_Status build));
       KitStatus_Failure := KitStatus_Failure (Kit_Status target) |}
    target.

Definition failed_target (target : IntegrationKit) (build : Build) : IntegrationKit :=
  set_Kit_Status
    (set_KitStatus_Phase IntegrationKitPhaseError
       (set_KitStatus_Failure (BuildStatus_Failure (Build_Status build))
          (Kit_Status target)))
    target.

Definition handleBuildRunning : M unit :=
  kit <- deref ;;
  build <- client_Get_Build (ident (Kit_ObjectMeta kit)) ;;
  let phase := BuildStatus_Phase (Build_Status build) in
  if String.eqb phase BuildPhaseRunning then ret tt
  else if String.eqb phase BuildPhaseSucceeded then
    target <- deref ;;
    if negb (String.eqb (KitStatus_Phase (Kit_Status target))
                        IntegrationKitPhaseBuildRunning)
    then
      fail (ErrNew ("found kit " +:+ Name (BuildSpec_Meta (Build_Spec build))
                    +:+ " not in the expected phase (expectd="
                    +:+ IntegrationKitPhaseBuildRunning
                    +:+ ", found=" +:+ KitStatus_Phase (Kit_Status target)
                    +:+ ")"))
    else
      let target := ready_target target build in
      _ <- client_StatusUpdate_Kit target ;;
      informIntegrations target
  else if String.eqb phase BuildPhaseError || String.eqb phase BuildPhaseInterrupted then
    target <- deref ;;
    if negb (String.eqb (KitStatus_Phase (Kit_Status target))
                        IntegrationKitPhaseBuildRunning)
    then
      fail (ErrNew ("found kit " +:+ Name (BuildSpec_Meta (Build_Spec build))
                    +:+ " not the an expected phase (expectd="
                    +:+ IntegrationKitPhaseBuildRunning
                    +:+ ", found=" +:+ KitStatus_Phase (Kit_Status target)
                    +:+ ")"))
    else client_StatusUpdate_Kit (failed_target target build)
  else ret tt.

Definition buildAction_Handle : M unit :=
  kit <- deref ;;
  if String.eqb (KitStatus_Phase (Kit_Status kit)) IntegrationKitPhaseBuildSubmitted
  then handleBuildSubmitted
  else if String.eqb (KitStatus_Phase (Kit_Status kit)) IntegrationKitPhaseBuildRunning
  then handleBuildRunning
  else ret tt.

End Actions.

(** ** Reading the trace *)

Definition is_create (c : Call * option error) : bool :=
  match fst c with CallCreateBuild _ => true | _ => false end.

Definition is_delete (c : Call * option error) : bool :=
  match fst c with CallDeleteBuild _ => true | _ => false end.

Definition is_kit_write (c : Call * option error) : bool :=
  match fst c with
  | CallUpdateKit _ | CallStatusUpdateKit _ => true
  | _ => false
  end.

Definition is_apply (c : Call * option error) : bool :=
  match fst c with CallApply _ => true | _ => false end.

(** A call that went through. *)
Definition succeeded (c : Call * option error) : bool :=
  match snd c with None => true | Some _ => false end.

(** The number of Builds a trace created. *)
Definition creations (l : list (Call * option error)) : nat :=
  length (List.filter (fun c => is_create c && succeeded c) l).

(** [calls w w' l]: between [w] and [w'] exactly the calls [l] were made. *)
Definition calls (w w' : World) (l : list (Call * option error)) : Prop :=
  log w' = (log w ++ l)%list.

(** ** Pipeline composition (package trait, builder trait) *)

(** Modelled from the spec: the builder trait, which selects the steps of
    an environment, is known here through its tests only.
    Every step carries one phase tag.  The steps every pipeline shares are
    followed by the publisher the pair (cluster flavor, publish strategy)
    selects: the Kaniko publisher for Kubernetes with strategy Kaniko, the
    S2I publisher for OpenShift with strategy S2I.  Without a kit, or for a
    kit whose phase is unset, composition yields no step.  For any other
    pair the spec says nothing, and the model gives no answer. *)
Definition InitPhase : nat := 0.
Definition ProjectGenerationPhase : nat := 10.
Definition ProjectBuildPhase : nat := 20.
Definition ApplicationPackagePhase : nat := 30.
Definition ApplicationPublishPhase : nat := 40.

Definition IntegrationPlatformClusterOpenShift : string := "OpenShift".
Definition IntegrationPlatformClusterKubernetes : string := "Kubernetes".
Definition IntegrationPlatformBuildPublishStrategyS2I : string := "S2I".
Definition IntegrationPlatformBuildPublishStrategyKaniko : string := "Kaniko".

Definition kaniko_Publisher : Step :=
  {| Step_ID := "publisher/kaniko"; Step_Phase := ApplicationPublishPhase |}.

Definition s2i_Publisher : Step :=
  {| Step_ID := "publisher/s2i"; Step_Phase := ApplicationPublishPhase |}.

Definition publisher_for (cluster strategy : string) : option Step :=
  if String.eqb cluster IntegrationPlatformClusterKubernetes
     && String.eqb strategy IntegrationPlatformBuildPublishStrategyKaniko
  then Some kaniko_Publisher
  else if String.eqb cluster IntegrationPlatformClusterOpenShift
          && String.eqb strategy IntegrationPlatformBuildPublishStrategyS2I
  then Some s2i_Publisher
  else None.

Definition compose_steps (DefaultSteps : list Step)
  (platform : IntegrationPlatformSpec) (kit : option IntegrationKit)
  : option (list Step) :=
  match kit with
  | None => Some []
  | Some k =>
      if String.eqb (KitStatus_Phase (Kit_Status k)) "" then Some []
      else
        match publisher_for (Cluster platform) (PublishStrategy platform) with
        | Some publisher => Some (DefaultSteps ++ [publisher])%list
        | None => None
        end
  end.

Definition tagged_publish (s : Step) : bool :=
  Nat.eqb (Step_Phase s) ApplicationPublishPhase.

Definition platform_of (cluster strategy : string) : IntegrationPlatformSpec :=
  {| Cluster := cluster; PublishStrategy := strategy; Registry := "registry" |}.

(** ** Sample resources *)

Definition sample_meta (name : string) : ObjectMeta :=
  {| Namespace := "ns"; Name := name; OwnerReferences := [] |}.

Definition sample_kit (image phase : string) : IntegrationKit :=
  {| Kit_ObjectMeta := sample_meta "kit-a";
     Kit_Spec := {| KitSpec_Image := image; KitSpec_Dependencies := ["camel:core"] |};
     Kit_Status :=
       {| KitStatus_Phase := phase; KitStatus_BaseImage := "";
          KitStatus_Image := ""; KitStatus_PublicImage := "";
          KitStatus_Digest := ""; KitStatus_Artifacts := [];
          KitStatus_Failure := None |} |}.

Definition sample_platform : IntegrationPlatform :=
  {| Platform_Spec :=
       platform_of IntegrationPlatformClusterKubernetes
                   IntegrationPlatformBuildPublishStrategyKaniko |}.

Definition sample_steps : list Step :=
  [ {| Step_ID := "generate-project"; Step_Phase := ProjectGenerationPhase |};
    {| Step_ID := "inject-dependencies"; Step_Phase := ProjectGenerationPhase |};
    {| Step_ID := "sanitize-dependencies"; Step_Phase := ProjectGenerationPhase |};
    {| Step_ID := "compute-dependencies"; Step_Phase := ProjectBuildPhase |};
    {| Step_ID := "list-artifacts"; Step_Phase := ProjectBuildPhase |};
    {| Step_ID := "incremental-packager"; Step_Phase := ApplicationPackagePhase |} ].

Definition sample_env (catalog : option CamelCatalog) : Environment :=
  {| Env_CamelCatalog := catalog; Env_RuntimeVersion := "1.0";
     Env_Platform := Some sample_platform;
     Env_Steps := (sample_steps ++ [kaniko_Publisher])%list;
     Env_BuildDir := "/workspace" |}.

Definition sample_Apply (catalog : option CamelCatalog) (w : World)
  (i : option Integration) (k : IntegrationKit)
  : Result Environment * IntegrationKit :=
  (Ok (sample_env catalog), k).

Definition platform_ready (w : World) (ns : string) : Result IntegrationPlatform :=
  Ok sample_platform.

Definition platform_missing (w : World) (ns : string)
  : Result IntegrationPlatform :=
  Err ErrNotFound.

Definition sample_digest (k : IntegrationKit) : Result string :=
  Ok ("v1:" +:+ KitSpec_Image (Kit_Spec k)).

Definition sample_build (phase : string) : Build :=
  {| Build_TypeMeta := {| APIVersion := "camel.apache.org/v1alpha1"; Kind := "Build" |};
     Build_ObjectMeta := sample_meta "kit-a";
     Build_Spec :=
       {| BuildSpec_Meta := sample_meta "kit-a"; BuildSpec_CamelVersion := "2.23";
          BuildSpec_RuntimeVersion := "1.0";
          BuildSpec_Platform := Platform_Spec sample_platform;
          BuildSpec_Dependencies := ["camel:core"];
          BuildSpec_Steps := StepIDsFor (sample_steps ++ [kaniko_Publisher]);
          BuildSpec_BuildDir := "/workspace" |};
     Build_Status :=
       {| BuildStatus_Phase := phase; BuildStatus_Image := "img:1";
          BuildStatus_BaseImage := "base:1"; BuildStatus_PublicImage := "pub:1";
          BuildStatus_Error := ""; BuildStatus_Failure := None;
          BuildStatus_Artifacts :=
            [ {| ID := "a"; Location := "/tmp/a"; Target := "t" |} ] |} |}.

Definition sample_integration (name kit phase : string) : Integration :=
  {| Integration_ObjectMeta := sample_meta name;
     Integration_Status :=
       {| IntegrationStatus_Phase := phase; IntegrationStatus_Kit := kit |} |}.

(** A world holding the kit [kit-a] of namespace [ns], the given builds and
    integrations, and whose surroundings follow the script [script]. *)
Definition sample_world (kit : IntegrationKit)
  (bs : gmap (string * string) Build)
  (ints : gmap (string * string) Integration) (script : list Ambient) : World :=
  {| builds := bs; kits := {[ ("ns", "kit-a") := kit ]}; integrations := ints;
     scheme := true; kit_obj := kit; ambient := script; log := [] |}.

Definition quiet : Ambient := {| fault := None; edit := None |}.

(** A kit that was just created, with no pre-built image. *)
Definition world_new : World :=
  sample_world (sample_kit "" "") ∅ ∅ [].

(** The same with a pre-built image. *)
Definition world_imported : World :=
  sample_world (sample_kit "img:0" "") ∅ ∅ [].

Definition store_succeeded : gmap (string * string) Build :=
  {[ ("ns", "kit-a") := sample_build BuildPhaseSucceeded ]}.

Definition waiting : gmap (string * string) Integration :=
  <[("ns", "it-1") := sample_integration "it-1" "kit-a" "WaitingForKit"]>
    (<[("ns", "it-2") := sample_integration "it-2" "kit-a-2" "WaitingForKit"]> ∅).

(** Two integrations wait for [kit-a]; the update of the second fails. *)
Definition waiting_two : gmap (string * string) Integration :=
  <[("ns", "it-1") := sample_integration "it-1" "kit-a" "WaitingForKit"]>
    (<[("ns", "it-3") := sample_integration "it-3" "kit-a" "WaitingForKit"]> ∅).

Definition world_flaky : World :=
  sample_world (sample_kit "" IntegrationKitPhaseReady) ∅ waiting_two
               [quiet; quiet; {| fault := Some "conflict"; edit := None |}].

(** The Build of [kit-a] has succeeded and the kit is being monitored. *)
Definition world_running : World :=
  sample_world (sample_kit "" IntegrationKitPhaseBuildRunning)
               store_succeeded waiting [].

(** The same, but the phase of the kit object is set to Ready while the
    Build is fetched. *)
Definition world_edited : World :=
  sample_world (sample_kit "" IntegrationKitPhaseBuildRunning) store_succeeded ∅
               [ {| fault := None; edit := Some IntegrationKitPhaseReady |} ].

(** The kit is ready; [it-1] waits for it and [it-2] for another kit whose
    name it is a prefix of. *)
Definition world_ready : World :=
  sample_world (sample_kit "" IntegrationKitPhaseReady) ∅ waiting [].

(** The kit is submitted and no Build exists yet. *)
Definition world_submitted : World :=
  sample_world (sample_kit "" IntegrationKitPhaseBuildSubmitted) ∅ ∅ [].

Definition sample_catalog : CamelCatalog := {| Version := "2.23" |}.

(** The kit is submitted and its Build is observed Running. *)
Definition world_observed : World :=
  sample_world (sample_kit "" IntegrationKitPhaseBuildSubmitted)
               {[ ("ns", "kit-a") := sample_build BuildPhaseRunning ]} ∅ [].

(** The kit is being monitored but its Build is gone. *)
Definition world_orphan : World :=
  sample_world (sample_kit "" IntegrationKitPhaseBuildRunning) ∅ ∅ [].

(** The kit is being monitored and its Build has not started yet. *)
Definition world_pending : World :=
  sample_world (sample_kit "" IntegrationKitPhaseBuildRunning)
               {[ ("ns", "kit-a") := sample_build "Pending" ]} waiting [].

(** A Build that ended in error. *)
Definition failed_build : Build :=
  {| Build_TypeMeta := Build_TypeMeta (sample_build BuildPhaseError);
     Build_ObjectMeta := sample_meta "kit-a";
     Build_Spec := Build_Spec (sample_build BuildPhaseError);
     Build_Status :=
       {| BuildStatus_Phase := BuildPhaseError; BuildStatus_Image := "";
          BuildStatus_BaseImage := ""; BuildStatus_PublicImage := "";
          BuildStatus_Error := "compilation failed";
          BuildStatus_Failure := Some {| Reason := "compilation failed" |};
          BuildStatus_Artifacts := [] |} |}.

Definition world_failed : World :=
  sample_world (sample_kit "" IntegrationKitPhaseBuildRunning)
               {[ ("ns", "kit-a") := failed_build ]} waiting [].

(** A composition that fails. *)
Definition failing_Apply (w : World) (i : option Integration) (k : IntegrationKit)
  : Result Environment * IntegrationKit :=
  (Err (ErrNew "no platform found"), k).

Definition refused (msg : string) : Ambient := {| fault := Some msg; edit := None |}.

(** The kit is submitted and the store does not answer the Get. *)
Definition world_unreachable : World :=
  sample_world (sample_kit "" IntegrationKitPhaseBuildSubmitted) ∅ ∅
               [refused "timeout"].

(** The kit is submitted, its earlier Build has succeeded, and the store
    refuses the Delete. *)
Definition world_delete_refused : World :=
  sample_world (sample_kit "" IntegrationKitPhaseBuildSubmitted) store_succeeded ∅
               [quiet; refused "forbidden"].

(** The same, but the store refuses the Create. *)
Definition world_create_refused : World :=
  sample_world (sample_kit "" IntegrationKitPhaseBuildSubmitted) store_succeeded ∅
               [quiet; quiet; refused "quota exceeded"].

(** An environment with a catalog but without a runtime version. *)
Definition env_without_runtime : Environment :=
  {| Env_CamelCatalog := Some sample_catalog; Env_RuntimeVersion := "";
     Env_Platform := Some sample_platform;
     Env_Steps := (sample_steps ++ [kaniko_Publisher])%list;
     Env_BuildDir := "/workspace" |}.

Definition Apply_without_runtime (w : World) (i : option Integration)
  (k : IntegrationKit) : Result Environment * IntegrationKit :=
  (Ok env_without_runtime, k).


(** ** Vocabulary of the notification *)

Definition key (i : Integration) : string * string :=
  ident (Integration_ObjectMeta i).

(** Every resource is stored under its own identity. *)
Definition well_keyed (m : gmap (string * string) Integration) : Prop :=
  forall id i, m !! id = Some i -> key i = id.

(** The integration records the kit [name], by equality of strings. *)
Definition refers_to (name : string) (i : Integration) : Prop :=
  IntegrationStatus_Kit (Integration_Status i) = name.

#[global] Instance refers_to_dec name i : Decision (refers_to name i).
Proof. unfold refers_to. apply _. Defined.

Definition bound_to (kit : IntegrationKit) (i : Integration) : Prop :=
  in_namespace (Namespace (Kit_ObjectMeta kit)) i /\
  refers_to (Name (Kit_ObjectMeta kit)) i.

Definition resolving (i : Integration) : Integration :=
  set_Integration_Phase IntegrationPhaseResolvingKit i.

(** The store after the integrations [done] were updated one by one. *)
Definition updated (m : gmap (string * string) Integration)
  (done : list Integration) : gmap (string * string) Integration :=
  foldl (fun acc i => <[key i := resolving i]> acc) m done.

Definition served_update (i : Integration) : Call * option error :=
  (CallStatusUpdateIntegration (resolving i), None).

(** ** Vocabulary of the submitted sub-phase *)

Definition terminal (b : Build) : Prop :=
  BuildStatus_Phase (Build_Status b) = BuildPhaseError \/
  BuildStatus_Phase (Build_Status b) = BuildPhaseInterrupted \/
  BuildStatus_Phase (Build_Status b) = BuildPhaseSucceeded.

(** The Build of identity [id] is absent from the store, or is there in a
    terminal phase. *)
Definition absent_or_terminal (w : World) (id : string * string) : Prop :=
  match builds w !! id with
  | None => True
  | Some b => terminal b
  end.

Definition outcome_of (o : option error) : Result unit :=
  match o with None => Ok tt | Some e => Err e end.

(** What one run of [triggerBuild] from [u] can come to: [r] is its answer
    and [u'] the world it leaves. *)
Inductive triggered (apply : World -> option Integration -> IntegrationKit ->
                             Result Environment * IntegrationKit)
  (u : World) (r : Result Build) (u' : World) : Prop :=
| abandoned (e : error) :
    r = Err e ->
    calls u u' [(CallApply (kit_obj u), is_Err (fst (apply u None (kit_obj u))))] ->
    builds u' = builds u ->
    triggered apply u r u'
| delete_failed (msg : string) :
    r = Err (ErrWrap (ErrTransient msg) "cannot delete build") ->
    calls u u'
          [(CallApply (kit_obj u), None);
           (CallDeleteBuild (ident (Kit_ObjectMeta (snd (apply u None (kit_obj u))))),
            Some (ErrTransient msg))] ->
    builds u' = builds u ->
    triggered apply u r u'
| create_failed (b : Build) (o : option error) (e : error) :
    r = Err (ErrWrap e "cannot create build") ->
    o = None \/ o = Some ErrNotFound ->
    ident (Build_ObjectMeta b) = ident (Kit_ObjectMeta (snd (apply u None (kit_obj u)))) ->
    BuildStatus_Phase (Build_Status b) = BuildPhaseNone ->
    calls u u'
          [(CallApply (kit_obj u), None);
           (CallDeleteBuild (ident (Build_ObjectMeta b)), o);
           (CallCreateBuild b, Some e)] ->
    builds u' = delete (ident (Build_ObjectMeta b)) (builds u) ->
    triggered apply u r u'
| created (b : Build) (o : option error) :
    r = Ok b ->
    o = None \/ o = Some ErrNotFound ->
    ident (Build_ObjectMeta b) = ident (Kit_ObjectMeta (snd (apply u None (kit_obj u)))) ->
    BuildStatus_Phase (Build_Status b) = BuildPhaseNone ->
    calls u u'
          [(CallApply (kit_obj u), None);
           (CallDeleteBuild (ident (Build_ObjectMeta b)), o);
           (CallCreateBuild b, None)] ->
    builds u' = <[ident (Build_ObjectMeta b) := b]>
                  (delete (ident (Build_ObjectMeta b)) (builds u)) ->
    triggered apply u r u'.

(** The world once the Build of the kit's identity has been asked for and
    the store has answered. *)
Definition fetched (w : World) : World :=
  record (CallGetBuild (ident (Kit_ObjectMeta (kit_obj w))))
         (match builds w !! ident (Kit_ObjectMeta (kit_obj w)) with
          | Some _ => None
          | None => Some ErrNotFound
          end)
         (snd (step_ambient w)).

(** What one run of [handleBuildSubmitted] from [w] can come to. *)
Inductive submitted (apply : World -> option Integration -> IntegrationKit ->
                             Result Environment * IntegrationKit)
  (w : World) (r : Result unit) (w' : World) : Prop :=
| get_failed (msg : string) :
    fst (step_ambient w) = Some msg ->
    r = Err (ErrTransient msg) ->
    calls w w' [(CallGetBuild (ident (Kit_ObjectMeta (kit_obj w))),
                 Some (ErrTransient msg))] ->
    builds w' = builds w ->
    kits w' = kits w ->
    submitted apply w r w'
| left_alone (b : Build) :
    fst (step_ambient w) = None ->
    builds w !! ident (Kit_ObjectMeta (kit_obj w)) = Some b ->
    ~ terminal b ->
    BuildStatus_Phase (Build_Status b) <> BuildPhaseRunning ->
    r = Ok tt ->
    calls w w' [(CallGetBuild (ident (Kit_ObjectMeta (kit_obj w))), None)] ->
    builds w' = builds w ->
    kits w' = kits w ->
    submitted apply w r w'
| advanced (b : Build) (o : option error) :
    fst (step_ambient w) = None ->
    builds w !! ident (Kit_ObjectMeta (kit_obj w)) = Some b ->
    BuildStatus_Phase (Build_Status b) = BuildPhaseRunning ->
    r = outcome_of o ->
    calls w w'
          [(CallGetBuild (ident (Kit_ObjectMeta (kit_obj w))), None);
           (CallStatusUpdateKit
              (set_Kit_Phase IntegrationKitPhaseBuildRunning
                             (kit_obj (snd (step_ambient w)))), o)] ->
    builds w' = builds w ->
    submitted apply w r w'
| rebuilt (rb : Result Build) :
    fst (step_ambient w) = None ->
    absent_or_terminal w (ident (Kit_ObjectMeta (kit_obj w))) ->
    triggerBuild apply (fetched w) = (rb, w') ->
    triggered apply (fetched w) rb w' ->
    r = match rb with Ok _ => Ok tt | Err e => Err e end ->
    kits w' = kits w ->
    submitted apply w r w'.

(** No round-trip to come fails for a reason of the store's own. *)
Definition faultless (w : World) : Prop :=
  Forall (fun a => fault a = None) (ambient w).

(** The world a later pass over the same kit starts from: the store and
    the trace are as the earlier pass left them, the kit object is fetched
    afresh, and the surroundings follow a script of their own. *)
Definition later_pass (kit : IntegrationKit) (script : list Ambient)
  (w : World) : World :=
  with_ambient script (with_kit_obj kit w).

#[global] Instance bound_to_dec kit i : Decision (bound_to kit i).
Proof. unfold bound_to. apply _. Defined.

(** What a notification that goes through makes of a stored integration. *)
Definition notified (kit : IntegrationKit) (i : Integration) : Integration :=
  if decide (bound_to kit i) then resolving i else i.

Definition is_notification (c : Call * option error) : bool :=
  match fst c with
  | CallListIntegrations _ | CallStatusUpdateIntegration _ => true
  | _ => false
  end.

(** The listed integrations the notification updates: those of the kit's
    namespace that record the kit's name. *)
Definition bound_items (kit : IntegrationKit)
  (m : gmap (string * string) Integration) : list Integration :=
  filter (refers_to (Name (Kit_ObjectMeta kit)))
         (filter (in_namespace (Namespace (Kit_ObjectMeta kit)))
                 (map_to_list m).*2).

(** The Build with the kit recorded as its owner and controller, as
    [SetControllerReference] answers it. *)
Definition owned_by (owner : IntegrationKit) (b : Build) : Build :=
  {| Build_TypeMeta := Build_TypeMeta b;
     Build_ObjectMeta :=
       {| Namespace := Namespace (Build_ObjectMeta b);
          Name := Name (Build_ObjectMeta b);
          OwnerReferences :=
            (OwnerReferences (Build_ObjectMeta b)
               ++ [("IntegrationKit", Name (Kit_ObjectMeta owner))])%list |};
     Build_Spec := Build_Spec b;
     Build_Status := Build_Status b |}.

(** ** Properties *)

(** *** Round-trips *)

Lemma step_ambient_frame (w : World) :
  builds (snd (step_ambient w)) = builds w /\
  kits (snd (step_ambient w)) = kits w /\
  integrations (snd (step_ambient w)) = integrations w /\
  scheme (snd (step_ambient w)) = scheme w /\
  log (snd (step_ambient w)) = log w.
Proof. unfold step_ambient. destruct (ambient w); simpl; auto. Qed.

Lemma roundtrip_fault {A} (c : Call) (op : World -> Result A * World)
  (w : World) (msg : string) :
  fst (step_ambient w) = Some msg ->
  roundtrip c op w
  = (Err (ErrTransient msg),
     record c (Some (ErrTransient msg)) (snd (step_ambient w))).
Proof.
  intros H. unfold roundtrip. destruct (step_ambient w) as [f w1].
  simpl in H. subst f. reflexivity.
Qed.

Lemma roundtrip_served {A} (c : Call) (op : World -> Result A * World)
  (w : World) :
  fst (step_ambient w) = None ->
  roundtrip c op w
  = (fst (op (snd (step_ambient w))),
     record c (is_Err (fst (op (snd (step_ambient w)))))
            (snd (op (snd (step_ambient w))))).
Proof.
  intros H. unfold roundtrip. destruct (step_ambient w) as [f w1].
  simpl in H. subst f. simpl. destruct (op w1); reflexivity.
Qed.

(** *** What a call leaves alone *)

Lemma step_ambient_meta (w : World) :
  Kit_ObjectMeta (kit_obj (snd (step_ambient w))) = Kit_ObjectMeta (kit_obj w).
Proof.
  unfold step_ambient. destruct (ambient w) as [|a rest]; simpl; [done|].
  now destruct (edit a).
Qed.

Lemma status_update_integration_frame (i : Integration) (w : World) :
  builds (snd (client_StatusUpdate_Integration i w)) = builds w /\
  kits (snd (client_StatusUpdate_Integration i w)) = kits w.
Proof.
  unfold client_StatusUpdate_Integration, roundtrip, step_ambient,
    store_StatusUpdate_Integration.
  repeat (simpl; case_match; simplify_eq; simpl); auto.
Qed.

Lemma informLoop_frame (name : string) (items : list Integration) (w : World) :
  builds (snd (informLoop name items w)) = builds w /\
  kits (snd (informLoop name items w)) = kits w.
Proof.
  revert w. induction items as [|i rest IH]; intros w; simpl; [done|].
  destruct (negb _); [apply IH|].
  unfold bind.
  pose proof (status_update_integration_frame
                (set_Integration_Phase IntegrationPhaseResolvingKit i) w) as [Hb Hk].
  destruct (client_StatusUpdate_Integration _ w) as [[[]|e] w1]; simpl in *.
  - destruct (IH w1) as [Hb1 Hk1]. split; congruence.
  - done.
Qed.

Lemma informIntegrations_frame (kit : IntegrationKit) (w : World) :
  builds (snd (informIntegrations kit w)) = builds w /\
  kits (snd (informIntegrations kit w)) = kits w.
Proof.
  unfold informIntegrations, bind, client_List_Integrations, roundtrip,
    store_List_Integrations.
  pose proof (step_ambient_frame w) as (Hb & Hk & _).
  destruct (step_ambient w) as [[msg|] w1]; simpl in *; [done|].
  destruct (informLoop_frame (Name (Kit_ObjectMeta kit))
              (filter (in_namespace (Namespace (Kit_ObjectMeta kit)))
                      (map_to_list (integrations w1)).*2)
              (record (CallListIntegrations (Namespace (Kit_ObjectMeta kit)))
                      None w1)) as [Hb1 Hk1].
  simpl in *. split; congruence.
Qed.

(** C1. Let the Build of the kit's identity be fetched with phase
    Succeeded, and let the kit still be in phase BuildRunning when the
    observation is processed.  Then the status the handler assembles has
    phase Ready and the Build's base image, image and public image; its
    artifacts are the Build's, one for one, with the same id and target and
    an empty location; the handler goes on by updating the kit status with
    it and then informing the integrations; and once that update is served,
    the stored kit carries exactly this status, so no location. *)
Theorem build_succeeded_makes_kit_ready (w : World) (build : Build) :
  fst (step_ambient w) = None ->
  builds w !! ident (Kit_ObjectMeta (kit_obj w)) = Some build ->
  BuildStatus_Phase (Build_Status build) = BuildPhaseSucceeded ->
  KitStatus_Phase (Kit_Status (kit_obj (snd (step_ambient w))))
  = IntegrationKitPhaseBuildRunning ->
  let id := ident (Kit_ObjectMeta (kit_obj w)) in
  let observed := record (CallGetBuild id) None (snd (step_ambient w)) in
  let target := ready_target (kit_obj (snd (step_ambient w))) build in
  (KitStatus_Phase (Kit_Status target) = IntegrationKitPhaseReady /\
   KitStatus_BaseImage (Kit_Status target) = BuildStatus_BaseImage (Build_Status build) /\
   KitStatus_Image (Kit_Status target) = BuildStatus_Image (Build_Status build) /\
   KitStatus_PublicImage (Kit_Status target)
   = BuildStatus_PublicImage (Build_Status build)) /\
  (map ID (KitStatus_Artifacts (Kit_Status target))
   = map ID (BuildStatus_Artifacts (Build_Status build)) /\
   map Target (KitStatus_Artifacts (Kit_Status target))
   = map Target (BuildStatus_Artifacts (Build_Status build)) /\
   Forall (fun a => Location a = "") (KitStatus_Artifacts (Kit_Status target))) /\
  handleBuildRunning w
  = (_ <- client_StatusUpdate_Kit target ;; informIntegrations target) observed /\
  (forall old,
     fst (step_ambient observed) = None ->
     kits w !! id = Some old ->
     kits (snd (handleBuildRunning w)) !! id
     = Some (set_Kit_Status (Kit_Status target) old)).
Proof.
  intros Hserved Hbuild Hphase Hkit id observed target.
  assert (Hrun : handleBuildRunning w
                 = (_ <- client_StatusUpdate_Kit target ;;
                    informIntegrations target) observed).
  { unfold handleBuildRunning at 1. unfold bind at 1. unfold deref at 1.
    unfold bind at 1. unfold client_Get_Build.
    rewrite roundtrip_served by done. unfold store_Get_Build.
    destruct (step_ambient_frame w) as (-> & _). rewrite Hbuild.
    simpl. rewrite Hphase. simpl.
    unfold bind at 1. unfold deref at 1. simpl. rewrite Hkit. reflexivity. }
  split; [done|]. split.
  { simpl. rewrite !map_map. simpl. split; [done|]. split; [done|].
    apply Forall_map. now apply Forall_true. }
  split; [exact Hrun|].
  intros old Hnext Hold. rewrite Hrun. unfold bind.
  unfold client_StatusUpdate_Kit. rewrite roundtrip_served by done.
  unfold store_StatusUpdate_Kit.
  assert (Hid : ident (Kit_ObjectMeta target) = id).
  { subst target id. simpl. now rewrite step_ambient_meta. }
  rewrite Hid.
  destruct (step_ambient_frame observed) as (_ & Hk & _).
  rewrite Hk. simpl.
  destruct (step_ambient_frame w) as (_ & -> & _).
  rewrite Hold. simpl.
  match goal with
  | |- kits (snd (informIntegrations ?k ?w0)) !! _ = _ =>
      destruct (informIntegrations_frame k w0) as [_ ->]
  end.
  simpl. now rewrite lookup_insert_eq.
Qed.

(** *** The notification loop *)

Lemma lookup_updated_other (done : list Integration)
  (m : gmap (string * string) Integration) (id : string * string) :
  id ∉ key <$> done -> updated m done !! id = m !! id.
Proof.
  revert m. induction done as [|i done IH]; intros m Hid; simpl; [done|].
  rewrite fmap_cons, not_elem_of_cons in Hid. destruct Hid as [Hne Hid].
  unfold updated in *. simpl. rewrite IH by done.
  now rewrite lookup_insert_ne.
Qed.

Lemma lookup_updated_member (done : list Integration)
  (m : gmap (string * string) Integration) (i : Integration) :
  NoDup (key <$> done) -> i ∈ done ->
  updated m done !! key i = Some (resolving i).
Proof.
  revert m. induction done as [|j done IH]; intros m Hnd Hin.
  - by apply elem_of_nil in Hin.
  - rewrite fmap_cons, NoDup_cons in Hnd. destruct Hnd as [Hj Hnd].
    apply elem_of_cons in Hin as [->|Hin].
    + change (updated m (j :: done)) with (updated (<[key j := resolving j]> m) done).
      rewrite lookup_updated_other by done. apply lookup_insert_eq.
    + change (updated m (j :: done)) with (updated (<[key j := resolving j]> m) done).
      now apply IH.
Qed.

Lemma informLoop_spec (name : string) (items : list Integration) (w : World) :
  NoDup (key <$> items) ->
  Forall (fun i => integrations w !! key i = Some i) items ->
  exists done rest,
    filter (refers_to name) items = (done ++ rest)%list /\
    integrations (snd (informLoop name items w)) = updated (integrations w) done /\
    match fst (informLoop name items w) with
    | Ok _ =>
        rest = [] /\
        calls w (snd (informLoop name items w)) (served_update <$> done)
    | Err e =>
        exists j rest',
          rest = j :: rest' /\
          calls w (snd (informLoop name items w))
                ((served_update <$> done)
                   ++ [(CallStatusUpdateIntegration (resolving j), Some e)])%list
    end.
Proof.
  revert w. induction items as [|i items IH]; intros w Hnd Hall.
  - exists [], []. simpl. unfold calls. simpl. now rewrite app_nil_r.
  - rewrite fmap_cons, NoDup_cons in Hnd. destruct Hnd as [Hi Hnd].
    apply Forall_cons in Hall as [Hlook Hall].
    simpl.
    destruct (String.eqb_spec (IntegrationStatus_Kit (Integration_Status i)) name)
      as [Hname|Hname]; simpl.
    + rewrite filter_cons_True by done.
      unfold bind, client_StatusUpdate_Integration, roundtrip.
      pose proof (step_ambient_frame w) as (_ & _ & Hint & _ & Hlog).
      destruct (step_ambient w) as [[msg|] w1]; simpl in *.
      * exists [], (i :: filter (refers_to name) items). simpl.
        split; [done|]. split; [done|].
        exists i, (filter (refers_to name) items). split; [done|].
        unfold calls. simpl. now rewrite Hlog.
      * unfold store_StatusUpdate_Integration. simpl.
        change (ident (Integration_ObjectMeta i)) with (key i).
        rewrite Hint, Hlook. simpl.
        match goal with
        | |- context [informLoop name items ?w2] =>
            destruct (IH w2 Hnd) as (done & rest & Hsplit & Hstore & Hout)
        end.
        { simpl. apply Forall_forall. intros j Hj.
          rewrite lookup_insert_ne.
          - rewrite Forall_forall in Hall. now apply Hall.
          - intros Heq. apply Hi. rewrite Heq. now apply list_elem_of_fmap_2. }
        exists (i :: done), rest. simpl in *.
        split; [now rewrite Hsplit|]. split.
        { rewrite Hstore. unfold updated, resolving. simpl.
          now destruct i as [meta [ph ki]]. }
        destruct (fst (informLoop name items _)).
        -- destruct Hout as [-> Hcalls]. split; [done|].
           unfold calls in *. rewrite Hcalls. simpl.
           rewrite Hlog, <- app_assoc. reflexivity.
        -- destruct Hout as (j & rest' & -> & Hcalls).
           exists j, rest'. split; [done|].
           unfold calls in *. rewrite Hcalls. simpl.
           rewrite Hlog, <- app_assoc. reflexivity.
    + rewrite filter_cons_False by done. now apply IH.
Qed.

Lemma listing_NoDup (P : Integration -> Prop) `{forall i, Decision (P i)}
  (l : list (string * string * Integration)) :
  NoDup l.*1 -> Forall (fun p => key p.2 = p.1) l ->
  NoDup (key <$> filter P l.*2).
Proof.
  induction l as [|[id i] l IH]; intros Hnd Hkeys; simpl; [constructor|].
  rewrite fmap_cons, NoDup_cons in Hnd. destruct Hnd as [Hid Hnd].
  apply Forall_cons in Hkeys as [Hkey Hkeys]. simpl in *.
  rewrite filter_cons. destruct (decide (P i)); [|now apply IH].
  rewrite fmap_cons. apply NoDup_cons. split; [|now apply IH].
  intros Hin. apply Hid.
  apply list_elem_of_fmap in Hin as (j & Hj & Hjin).
  apply list_elem_of_filter in Hjin as [_ Hjin].
  apply list_elem_of_fmap in Hjin as ([id' j'] & -> & Hpair). simpl in *.
  rewrite Forall_forall in Hkeys. specialize (Hkeys _ Hpair). simpl in Hkeys.
  apply list_elem_of_fmap. exists (id', j'). split; [|done]. simpl. congruence.
Qed.

Lemma listing_stored (m : gmap (string * string) Integration) (ns : string)
  (i : Integration) :
  well_keyed m ->
  i ∈ filter (in_namespace ns) (map_to_list m).*2 <->
  m !! key i = Some i /\ in_namespace ns i.
Proof.
  intros Hwk. rewrite list_elem_of_filter, list_elem_of_fmap. split.
  - intros [Hns ([id j] & -> & Hin)]. simpl in *.
    apply elem_of_map_to_list in Hin. now rewrite (Hwk _ _ Hin).
  - intros [Hlook Hns]. split; [done|].
    exists (key i, i). split; [done|]. now apply elem_of_map_to_list.
Qed.

(** C5. The notification lists the integrations of the kit's namespace and
    walks them in order.  An integration is changed only if it is in that
    namespace and records exactly the kit's name, and then only its phase
    is set, to ResolvingKit; when the handler answers success every such
    integration has been updated; when it answers an error, that error is
    the outcome of the last call made, every call before it was served, and
    every integration whose update was served is stored as updated. *)
Theorem informIntegrations_exact (kit : IntegrationKit) (w : World) :
  well_keyed (integrations w) ->
  let run := informIntegrations kit w in
  (forall id i,
     integrations w !! id = Some i ->
     integrations (snd run) !! id = Some i \/
     (bound_to kit i /\ integrations (snd run) !! id = Some (resolving i))) /\
  (forall id, integrations w !! id = None -> integrations (snd run) !! id = None) /\
  (fst run = Ok tt ->
   forall id i,
     integrations w !! id = Some i -> bound_to kit i ->
     integrations (snd run) !! id = Some (resolving i)) /\
  exists l,
    calls w (snd run) l /\
    (fst run = Ok tt -> forallb succeeded l = true) /\
    (forall e, fst run = Err e ->
       exists l0 c, l = (l0 ++ [(c, Some e)])%list /\ forallb succeeded l0 = true) /\
    (forall j,
       (CallStatusUpdateIntegration j, None) ∈ l ->
       integrations (snd run) !! key j = Some j).
Proof.
  intros Hwk run. subst run.
  unfold informIntegrations, bind, client_List_Integrations, roundtrip.
  pose proof (step_ambient_frame w) as (_ & _ & Hint & _ & Hlog).
  destruct (step_ambient w) as [[msg|] w1]; simpl in *.
  { rewrite Hint. split; [auto|]. split; [auto|]. split; [done|].
    eexists. split; [unfold calls; simpl; now rewrite Hlog|].
    split; [done|]. split.
    - intros e [= <-]. now exists [], (CallListIntegrations (Namespace (Kit_ObjectMeta kit))).
    - intros j Hj. apply list_elem_of_singleton in Hj. done. }
  set (ns := Namespace (Kit_ObjectMeta kit)) in *.
  set (name := Name (Kit_ObjectMeta kit)) in *.
  set (items := filter (in_namespace ns) (map_to_list (integrations w1)).*2).
  set (w2 := record (CallListIntegrations ns) None w1).
  assert (Hnd : NoDup (key <$> items)).
  { apply listing_NoDup; [apply NoDup_fst_map_to_list|].
    apply Forall_forall. intros [id i] Hin. simpl.
    apply elem_of_map_to_list in Hin. rewrite Hint in Hin. eauto. }
  assert (Hitems : forall i, i ∈ items <-> integrations w !! key i = Some i /\ in_namespace ns i).
  { intros i. subst items. rewrite Hint. now apply listing_stored. }
  destruct (informLoop_spec name items w2 Hnd) as (done & rest & Hsplit & Hstore & Hout).
  { apply Forall_forall. intros i Hi. simpl. rewrite Hint. now apply Hitems. }
  simpl in Hstore. rewrite Hint in Hstore.
  assert (Hdone : forall i, i ∈ done -> i ∈ items /\ refers_to name i).
  { intros i Hi. assert (Hf : i ∈ filter (refers_to name) items).
    { rewrite Hsplit. apply elem_of_app. now left. }
    apply list_elem_of_filter in Hf. tauto. }
  assert (Hnd' : NoDup (key <$> done)).
  { assert (Hnd2 : NoDup (key <$> filter (refers_to name) items)).
    { eapply sublist_NoDup; [exact Hnd|]. apply fmap_sublist, sublist_filter. }
    rewrite Hsplit, fmap_app in Hnd2. now apply NoDup_app in Hnd2 as [? _]. }
  assert (Hchanged : forall id i,
             integrations w !! id = Some i ->
             (i ∈ done /\ integrations (snd (informLoop name items w2)) !! id
                          = Some (resolving i)) \/
             ((i ∉ done) /\ integrations (snd (informLoop name items w2)) !! id = Some i)).
  { intros id i Hlook. rewrite Hstore.
    pose proof (Hwk _ _ Hlook) as Hkey.
    destruct (decide (id ∈ key <$> done)) as [Hin|Hout'].
    - left. apply list_elem_of_fmap in Hin as (j & Hj & Hjin).
      destruct (Hdone _ Hjin) as [Hjitems _].
      apply Hitems in Hjitems as [Hjlook _].
      rewrite <- Hj, Hlook in Hjlook. injection Hjlook as <-.
      split; [done|]. rewrite <- Hkey. now apply lookup_updated_member.
    - right. split.
      + intros Hin. apply Hout'. rewrite <- Hkey. now apply list_elem_of_fmap_2.
      + now rewrite lookup_updated_other. }
  split.
  { intros id i Hlook. destruct (Hchanged id i Hlook) as [[Hin Hnew]|[_ Hsame]].
    - right. split; [|done]. destruct (Hdone _ Hin) as [Hi Href].
      apply Hitems in Hi as [_ Hns]. now split.
    - now left. }
  split.
  { intros id Hnone. rewrite Hstore, lookup_updated_other; [done|].
    intros Hin. apply list_elem_of_fmap in Hin as (j & -> & Hjin).
    destruct (Hdone _ Hjin) as [Hjitems _].
    apply Hitems in Hjitems as [Hjlook _]. congruence. }
  split.
  { intros Hok id i Hlook [Hns Href]. rewrite Hok in Hout.
    destruct Hout as [-> _]. rewrite app_nil_r in Hsplit.
    destruct (Hchanged id i Hlook) as [[_ Hnew]|[Hnot _]]; [done|].
    exfalso. apply Hnot. rewrite <- Hsplit. apply list_elem_of_filter.
    split; [done|]. apply Hitems. split; [|done].
    now rewrite (Hwk _ _ Hlook). }
  assert (Hserved : forall l : list Integration, forallb succeeded (served_update <$> l) = true).
  { intros l. induction l; simpl; auto. }
  assert (Hw2 : log w2 = (log w ++ [(CallListIntegrations ns, None)])%list).
  { subst w2. simpl. now rewrite Hlog. }
  destruct (fst (informLoop name items w2)) as [[]|e] eqn:Hres.
  - destruct Hout as [-> Hcalls].
    exists ((CallListIntegrations ns, None) :: (served_update <$> done)).
    split. { unfold calls in *. rewrite Hcalls, Hw2, <- app_assoc. reflexivity. }
    split. { intros _. simpl. apply Hserved. }
    split. { intros e [=]. }
    intros j Hj. apply elem_of_cons in Hj as [[=]|Hj].
    apply list_elem_of_fmap in Hj as (i & [= ->] & Hi).
    change (key (resolving i)) with (key i).
    rewrite Hstore. now apply lookup_updated_member.
  - destruct Hout as (j & rest' & -> & Hcalls).
    exists ((CallListIntegrations ns, None) :: (served_update <$> done)
              ++ [(CallStatusUpdateIntegration (resolving j), Some e)])%list.
    split. { unfold calls in *. rewrite Hcalls, Hw2, <- app_assoc. reflexivity. }
    split. { intros [=]. }
    split.
    { intros e' [= <-].
      exists ((CallListIntegrations ns, None) :: (served_update <$> done)),
             (CallStatusUpdateIntegration (resolving j)).
      split; [done|]. simpl. apply Hserved. }
    intros i Hi. apply elem_of_cons in Hi as [[=]|Hi].
    apply elem_of_app in Hi as [Hi|Hi].
    + apply list_elem_of_fmap in Hi as (i' & [= ->] & Hi').
      change (key (resolving i')) with (key i').
      rewrite Hstore. now apply lookup_updated_member.
    + apply list_elem_of_singleton in Hi. done.
Qed.

Section Properties.

Variable trait_Apply :
  World -> option Integration -> IntegrationKit ->
  Result Environment * IntegrationKit.
Variable GetCurrentPlatform : World -> string -> Result IntegrationPlatform.
Variable ComputeForIntegrationKit : IntegrationKit -> Result string.

(** C9. When the platform of the kit's namespace cannot be fetched, the
    initialize handler answers success and leaves the whole world as it
    found it: no update of the kit, no status update, no digest, no call
    recorded. *)
Theorem initialize_waits_for_platform (w : World) (e : error) :
  GetCurrentPlatform w (Namespace (Kit_ObjectMeta (kit_obj w))) = Err e ->
  initializeAction_Handle trait_Apply GetCurrentPlatform ComputeForIntegrationKit w
  = (Ok tt, w).
Proof.
  intros Hplatform.
  unfold initializeAction_Handle, bind, deref.
  now rewrite Hplatform.
Qed.

Lemma first_phase_meta (k : IntegrationKit) :
  Kit_ObjectMeta (first_phase k) = Kit_ObjectMeta k.
Proof. unfold first_phase. now destruct (String.eqb _ _). Qed.

Lemma first_phase_spec (k : IntegrationKit) :
  Kit_Spec (first_phase k) = Kit_Spec k.
Proof. unfold first_phase. now destruct (String.eqb _ _). Qed.

Lemma first_phase_built (k : IntegrationKit) :
  KitSpec_Image (Kit_Spec k) = "" ->
  KitStatus_Phase (Kit_Status (first_phase k)) = IntegrationKitPhaseBuildSubmitted.
Proof. intros H. unfold first_phase. now rewrite H. Qed.

Lemma first_phase_reused (k : IntegrationKit) :
  KitSpec_Image (Kit_Spec k) <> "" ->
  KitStatus_Phase (Kit_Status (first_phase k)) = IntegrationKitPhaseReady /\
  KitStatus_Image (Kit_Status (first_phase k)) = KitSpec_Image (Kit_Spec k).
Proof.
  intros H. unfold first_phase.
  destruct (String.eqb_spec (KitSpec_Image (Kit_Spec k)) ""); [done|].
  now split.
Qed.

Ltac trace_tail :=
  unfold calls; eexists; split;
  [ rewrite <- ?app_assoc; reflexivity | reflexivity ].

(** C3. With the platform ready, one run of the initialize handler never
    touches the builds nor calls Create.  When it completes, the kit stored
    under the identity of the composed kit has the composed spec, phase
    BuildSubmitted when that spec names no image, phase Ready with the
    status image equal to the spec image when it does, and in both cases
    the digest computed over the kit with its phase set.  When it answers
    an error instead, the status of every stored kit is as it was. *)
Theorem initialize_first_phase (w : World) (p : IntegrationPlatform) :
  GetCurrentPlatform w (Namespace (Kit_ObjectMeta (kit_obj w))) = Ok p ->
  let run :=
    initializeAction_Handle trait_Apply GetCurrentPlatform
                            ComputeForIntegrationKit w in
  let target := first_phase (snd (trait_Apply w None (kit_obj w))) in
  (builds (snd run) = builds w /\
   exists l, calls w (snd run) l /\ forallb (fun c => negb (is_create c)) l = true) /\
  (fst run = Ok tt ->
   exists stored d,
     ComputeForIntegrationKit target = Ok d /\
     kits (snd run) !! ident (Kit_ObjectMeta target) = Some stored /\
     Kit_Spec stored = Kit_Spec target /\
     Kit_Status stored = set_KitStatus_Digest d (Kit_Status target) /\
     (KitSpec_Image (Kit_Spec stored) = "" ->
      KitStatus_Phase (Kit_Status stored) = IntegrationKitPhaseBuildSubmitted) /\
     (KitSpec_Image (Kit_Spec stored) <> "" ->
      KitStatus_Phase (Kit_Status stored) = IntegrationKitPhaseReady /\
      KitStatus_Image (Kit_Status stored) = KitSpec_Image (Kit_Spec stored))) /\
  (forall e,
     fst run = Err e ->
     forall id, Kit_Status <$> kits (snd run) !! id = Kit_Status <$> kits w !! id).
Proof.
  intros Hplatform run target. subst run target.
  unfold initializeAction_Handle, bind, deref. rewrite Hplatform.
  unfold trait_Apply_call, lift.
  destruct (trait_Apply w None (kit_obj w)) as [[env|e] composed]; simpl.
  2:{ split; [split; [done|]|split; [done|done]].
      eexists. split; [reflexivity|]. reflexivity. }
  unfold client_Update_Kit, client_StatusUpdate_Kit, roundtrip, step_ambient,
    store_Update_Kit, store_StatusUpdate_Kit, calls.
  repeat (simpl; case_match; simplify_eq; simpl).
  all: split; [split; [done | trace_tail] | split].
  all: try (intros [=]; done).
  all: try (intros ? [=]; done).
  all: simpl in *.
  all: try match goal with
       | |- forall e, Err _ = Err e -> _ =>
           intros ? _ id';
           match goal with
           | H : kits ?v !! ?k = Some _ |- context [<[?k := _]> (kits ?v)] =>
               destruct (decide (k = id')) as [<-|Hne];
               [ rewrite lookup_insert_eq, H; reflexivity
               | rewrite lookup_insert_ne by done; reflexivity ]
           end
       end.
  all: intros _; rewrite first_phase_meta in *.
  all: rewrite lookup_insert_eq.
  all: match goal with
       | H : <[_ := _]> _ !! _ = Some _ |- _ =>
           rewrite lookup_insert_eq in H; simplify_eq
       end.
  all: eexists _, _; split; [reflexivity|]; split; [reflexivity|]; simpl.
  all: rewrite first_phase_spec.
  all: split; [reflexivity|]; split; [reflexivity|].
  all: split; [apply first_phase_built | apply first_phase_reused].
Qed.

(** The guard of [handleBuildRunning] reads the phase of the kit object the
    handler holds.  Should that object be in another phase than
    BuildRunning once the Build has been fetched, with the Build Succeeded,
    Error or Interrupted, the build action answers an error whose message
    names the kit, the expected phase BuildRunning and the phase found, and
    the only call made is the Get: the stored kits, builds and integrations
    are as before. *)
Theorem phase_conflict_aborts (w : World) (build : Build) :
  KitStatus_Phase (Kit_Status (kit_obj w)) = IntegrationKitPhaseBuildRunning ->
  fst (step_ambient w) = None ->
  builds w !! ident (Kit_ObjectMeta (kit_obj w)) = Some build ->
  BuildStatus_Phase (Build_Status build) = BuildPhaseSucceeded \/
  BuildStatus_Phase (Build_Status build) = BuildPhaseError \/
  BuildStatus_Phase (Build_Status build) = BuildPhaseInterrupted ->
  KitStatus_Phase (Kit_Status (kit_obj (snd (step_ambient w))))
  <> IntegrationKitPhaseBuildRunning ->
  let found := KitStatus_Phase (Kit_Status (kit_obj (snd (step_ambient w)))) in
  let run := buildAction_Handle trait_Apply w in
  exists wording,
    (wording = " not in the expected phase (expectd=" \/
     wording = " not the an expected phase (expectd=") /\
    fst run
    = Err (ErrNew ("found kit " +:+ Name (BuildSpec_Meta (Build_Spec build))
                   +:+ wording +:+ IntegrationKitPhaseBuildRunning
                   +:+ ", found=" +:+ found +:+ ")")) /\
    calls w (snd run) [(CallGetBuild (ident (Kit_ObjectMeta (kit_obj w))), None)] /\
    kits (snd run) = kits w /\
    builds (snd run) = builds w /\
    integrations (snd run) = integrations w.
Proof.
  intros Hentry Hserved Hbuild Hphase Hedited found run.
  destruct (step_ambient_frame w) as (Hb & Hk & Hi & _ & Hl).
  assert (Hrun : exists wording,
             (wording = " not in the expected phase (expectd=" \/
              wording = " not the an expected phase (expectd=") /\
             run = (Err (ErrNew ("found kit "
                                 +:+ Name (BuildSpec_Meta (Build_Spec build))
                                 +:+ wording +:+ IntegrationKitPhaseBuildRunning
                                 +:+ ", found=" +:+ found +:+ ")")),
                    record (CallGetBuild (ident (Kit_ObjectMeta (kit_obj w))))
                           None (snd (step_ambient w)))).
  { subst run found.
    unfold buildAction_Handle, bind, deref. rewrite Hentry. simpl.
    unfold handleBuildRunning, bind, deref, client_Get_Build.
    rewrite roundtrip_served by done. unfold store_Get_Build.
    rewrite Hb, Hbuild. simpl.
    apply String.eqb_neq in Hedited.
    destruct Hphase as [Hp | [Hp | Hp]]; rewrite Hp; simpl;
      rewrite Hedited; simpl; eauto. }
  destruct Hrun as (wording & Hwording & ->).
  exists wording. simpl. unfold calls. simpl. rewrite Hl. auto 10.
Qed.

(** *** The submitted sub-phase *)

Lemma served_or_failed (w : World) :
  (exists msg, fst (step_ambient w) = Some msg) \/ fst (step_ambient w) = None.
Proof. destruct (fst (step_ambient w)); eauto. Qed.

Lemma triggerBuild_frame (u : World) :
  kits (snd (triggerBuild trait_Apply u)) = kits u /\
  integrations (snd (triggerBuild trait_Apply u)) = integrations u.
Proof.
  unfold triggerBuild, bind, deref, trait_Apply_call, assign_kit, lift, attempt,
    SetControllerReference, client_Delete_Build, client_Create_Build, roundtrip,
    step_ambient, store_Delete_Build, store_Create_Build, ret, fail.
  repeat (simpl; case_match; simplify_eq; simpl); auto.
Qed.

Lemma client_Delete_Build_cases (b : Build) (u : World) :
  (exists msg,
     fst (client_Delete_Build b u) = Err (ErrTransient msg) /\
     builds (snd (client_Delete_Build b u)) = builds u /\
     log (snd (client_Delete_Build b u))
     = (log u ++ [(CallDeleteBuild (ident (Build_ObjectMeta b)),
                   Some (ErrTransient msg))])%list) \/
  (exists o,
     (o = None \/ o = Some ErrNotFound) /\
     fst (client_Delete_Build b u) = outcome_of o /\
     builds (snd (client_Delete_Build b u))
     = delete (ident (Build_ObjectMeta b)) (builds u) /\
     log (snd (client_Delete_Build b u))
     = (log u ++ [(CallDeleteBuild (ident (Build_ObjectMeta b)), o)])%list).
Proof.
  unfold client_Delete_Build, roundtrip.
  pose proof (step_ambient_frame u) as (Hb & _ & _ & _ & Hl).
  destruct (step_ambient u) as [[msg|] u1]; simpl in *.
  - left. exists msg. now rewrite Hb, Hl.
  - right. unfold store_Delete_Build. rewrite Hb.
    destruct (builds u !! ident (Build_ObjectMeta b)) eqn:Hlook; simpl.
    + exists None. rewrite ?Hb, ?Hl. auto.
    + exists (Some ErrNotFound). rewrite ?Hb, ?Hl, delete_id by done. auto.
Qed.

Lemma client_Create_Build_cases (b : Build) (u : World) :
  builds u !! ident (Build_ObjectMeta b) = None ->
  (exists msg,
     fst (client_Create_Build b u) = Err (ErrTransient msg) /\
     builds (snd (client_Create_Build b u)) = builds u /\
     log (snd (client_Create_Build b u))
     = (log u ++ [(CallCreateBuild b, Some (ErrTransient msg))])%list) \/
  (fst (client_Create_Build b u) = Ok tt /\
   builds (snd (client_Create_Build b u))
   = <[ident (Build_ObjectMeta b) := b]> (builds u) /\
   log (snd (client_Create_Build b u))
   = (log u ++ [(CallCreateBuild b, None)])%list).
Proof.
  intros Hfree. unfold client_Create_Build, roundtrip.
  pose proof (step_ambient_frame u) as (Hb & _ & _ & _ & Hl).
  destruct (step_ambient u) as [[msg|] u1]; simpl in *.
  - left. exists msg. now rewrite Hb, Hl.
  - right. unfold store_Create_Build. rewrite Hb, Hfree. simpl.
    now rewrite ?Hb, ?Hl.
Qed.

Lemma triggerBuild_cases (u : World) :
  triggered trait_Apply u (fst (triggerBuild trait_Apply u))
            (snd (triggerBuild trait_Apply u)).
Proof.
  unfold triggerBuild, bind, deref, trait_Apply_call, assign_kit, lift.
  simpl.
  destruct (trait_Apply u None (kit_obj u)) as [[env|e] k1] eqn:Happly; simpl.
  2:{ eapply abandoned; [done| |done]. unfold calls. simpl. now rewrite Happly. }
  destruct (Env_CamelCatalog env) as [catalog|]; simpl.
  2:{ eapply abandoned; [done| |done]. unfold calls. simpl. now rewrite Happly. }
  destruct (Env_Platform env) as [platform|]; simpl.
  2:{ eapply abandoned; [done| |done]. unfold calls. simpl. now rewrite Happly. }
  unfold SetControllerReference. simpl.
  destruct (scheme u); simpl.
  2:{ eapply abandoned; [done| |done]. unfold calls. simpl. now rewrite Happly. }
  unfold attempt.
  match goal with
  | |- context [client_Delete_Build ?b ?v] =>
      set (build := b); set (u1 := v)
  end.
  destruct (client_Delete_Build_cases build u1)
    as [(msg & Hr & Hb & Hl) | (o & Ho & Hr & Hb & Hl)];
    destruct (client_Delete_Build build u1) as [rd u2]; simpl in *; subst rd.
  { simpl. eapply delete_failed; [reflexivity | | now rewrite Hb].
    unfold calls. rewrite Hl, Happly. simpl. now rewrite <- app_assoc. }
  assert (Hfree : builds u2 !! ident (Build_ObjectMeta build) = None).
  { rewrite Hb. apply lookup_delete_eq. }
  assert (Ho' : o = None \/ o = Some ErrNotFound) by exact Ho.
  destruct Ho as [Ho | Ho]; rewrite Ho; simpl.
  all: destruct (client_Create_Build_cases build u2 Hfree)
      as [(msg & Hr & Hb' & Hl') | (Hr & Hb' & Hl')];
      destruct (client_Create_Build build u2) as [rc u3]; simpl in *; subst rc; simpl.
  all: first
         [ eapply (create_failed _ _ _ _ build o);
           [reflexivity | exact Ho' | | reflexivity | |]
         | eapply (created _ _ _ _ build o);
           [reflexivity | exact Ho' | | reflexivity | |] ].
  all: try (simpl; now rewrite Happly).
  all: try (unfold calls; rewrite Hl', Hl, Ho; simpl; now rewrite <- !app_assoc).
  all: now rewrite Hb', Hb.
Qed.

Lemma terminal_wanted (b : Build) : rebuild_wanted (Ok b) = true <-> terminal b.
Proof.
  unfold rebuild_wanted, terminal.
  rewrite !orb_true_iff, !String.eqb_eq. tauto.
Qed.

Lemma terminal_not_running (b : Build) :
  terminal b -> BuildStatus_Phase (Build_Status b) <> BuildPhaseRunning.
Proof. intros [H | [H | H]]; rewrite H; discriminate. Qed.

Local Arguments rebuild_wanted : simpl never.

Lemma handleBuildSubmitted_run (w : World) (r : Result unit) (w' : World) :
  handleBuildSubmitted trait_Apply w = (r, w') -> submitted trait_Apply w r w'.
Proof.
  intros Hrun.
  unfold handleBuildSubmitted, client_Get_Build in Hrun.
  unfold bind at 1, deref at 1, bind at 1, attempt at 1 in Hrun.
  pose proof (step_ambient_frame w) as (Hb & Hk & _ & _ & Hl).
  destruct (served_or_failed w) as [[msg Hfault] | Hserved].
  { rewrite (roundtrip_fault _ _ _ _ Hfault) in Hrun. unfold bind in Hrun.
    simpl in Hrun. injection Hrun as <- <-.
    eapply get_failed; [exact Hfault | reflexivity | | exact Hb | exact Hk].
    unfold calls. simpl. now rewrite Hl. }
  rewrite (roundtrip_served _ _ _ Hserved) in Hrun.
  unfold store_Get_Build in Hrun. rewrite Hb in Hrun.
  pose proof (triggerBuild_cases (fetched w)) as Hcases.
  pose proof (triggerBuild_frame (fetched w)) as [Hkits _].
  assert (Hfk : kits (fetched w) = kits w) by (unfold fetched; simpl; exact Hk).
  unfold fetched in Hcases, Hkits.
  destruct (builds w !! ident (Kit_ObjectMeta (kit_obj w))) as [b|] eqn:Hlook;
    cbv iota in Hcases, Hkits.
  - simpl in Hrun. unfold bind at 1 in Hrun. simpl in Hrun.
    destruct (rebuild_wanted (Ok b)) eqn:Hwanted.
    + apply terminal_wanted in Hwanted.
      unfold bind in Hrun.
      destruct (triggerBuild trait_Apply _) as [[nb|e] u'] eqn:Htrig;
        simpl in *.
      * assert (Hnone : BuildStatus_Phase (Build_Status nb) = BuildPhaseNone).
        { inversion Hcases; congruence. }
        rewrite Hnone in Hrun. simpl in Hrun. injection Hrun as <- <-.
        eapply (rebuilt _ _ _ _ (Ok nb)); [done | | | | done | ].
        -- unfold absent_or_terminal. now rewrite Hlook.
        -- unfold fetched. rewrite Hlook. exact Htrig.
        -- unfold fetched. rewrite Hlook. exact Hcases.
        -- now rewrite Hkits.
      * injection Hrun as <- <-.
        eapply (rebuilt _ _ _ _ (Err e)); [done | | | | done | ].
        -- unfold absent_or_terminal. now rewrite Hlook.
        -- unfold fetched. rewrite Hlook. exact Htrig.
        -- unfold fetched. rewrite Hlook. exact Hcases.
        -- now rewrite Hkits.
    + assert (Hnt : ~ terminal b).
      { intros Ht. apply terminal_wanted in Ht. congruence. }
      clear Hcases Hkits.
      unfold bind at 1 in Hrun. simpl in Hrun.
      destruct (String.eqb_spec (BuildStatus_Phase (Build_Status b)) BuildPhaseRunning)
        as [Hrunning | Hother].
      * unfold bind, deref in Hrun. simpl in Hrun.
        unfold client_StatusUpdate_Kit, roundtrip in Hrun.
        match type of Hrun with
        | context [step_ambient ?v] =>
            pose proof (step_ambient_frame v) as (Hb2 & _ & _ & _ & Hl2);
            destruct (step_ambient v) as [[msg|] w2]
        end; simpl in *.
        -- injection Hrun as <- <-.
           eapply (advanced _ _ _ _ b (Some (ErrTransient msg)));
             [done | done | done | done | | simpl; congruence].
           unfold calls. simpl. now rewrite Hl2, Hl, <- app_assoc.
        -- unfold store_StatusUpdate_Kit in Hrun.
           destruct (kits w2 !! _); simpl in Hrun; injection Hrun as <- <-.
           ++ eapply (advanced _ _ _ _ b None);
                [done | done | done | done | | simpl; congruence].
              unfold calls. simpl. now rewrite Hl2, Hl, <- app_assoc.
           ++ eapply (advanced _ _ _ _ b (Some ErrNotFound));
                [done | done | done | done | | simpl; congruence].
              unfold calls. simpl. now rewrite Hl2, Hl, <- app_assoc.
      * simpl in Hrun. injection Hrun as <- <-.
        eapply (left_alone _ _ _ _ b); try done.
        unfold calls. simpl. now rewrite Hl.
  - simpl in Hrun. unfold bind at 1 in Hrun. simpl in Hrun.
    change (rebuild_wanted (Err ErrNotFound)) with true in Hrun.
    unfold bind in Hrun.
    destruct (triggerBuild trait_Apply _) as [[nb|e] u'] eqn:Htrig;
      simpl in *.
    + assert (Hnone : BuildStatus_Phase (Build_Status nb) = BuildPhaseNone).
      { inversion Hcases; congruence. }
      rewrite Hnone in Hrun. simpl in Hrun. injection Hrun as <- <-.
      eapply (rebuilt _ _ _ _ (Ok nb)); [done | | | | done | ].
      * unfold absent_or_terminal. now rewrite Hlook.
      * unfold fetched. rewrite Hlook. exact Htrig.
      * unfold fetched. rewrite Hlook. exact Hcases.
      * now rewrite Hkits.
    + injection Hrun as <- <-.
      eapply (rebuilt _ _ _ _ (Err e)); [done | | | | done | ].
      * unfold absent_or_terminal. now rewrite Hlook.
      * unfold fetched. rewrite Hlook. exact Htrig.
      * unfold fetched. rewrite Hlook. exact Hcases.
      * now rewrite Hkits.
Qed.

Lemma handleBuildSubmitted_cases (w : World) :
  submitted trait_Apply w (fst (handleBuildSubmitted trait_Apply w))
            (snd (handleBuildSubmitted trait_Apply w)).
Proof.
  apply handleBuildSubmitted_run. now destruct (handleBuildSubmitted trait_Apply w).
Qed.

(** When the Build is absent or terminal, the handler is [triggerBuild] run
    from the world the fetch left. *)
Lemma handleBuildSubmitted_rebuild (w : World) :
  fst (step_ambient w) = None ->
  absent_or_terminal w (ident (Kit_ObjectMeta (kit_obj w))) ->
  handleBuildSubmitted trait_Apply w
  = (build <- triggerBuild trait_Apply ;;
     if String.eqb (BuildStatus_Phase (Build_Status build)) BuildPhaseRunning then
       kit <- deref ;;
       client_StatusUpdate_Kit (set_Kit_Phase IntegrationKitPhaseBuildRunning kit)
     else ret tt) (fetched w).
Proof.
  intros Hserved Hwanted.
  unfold handleBuildSubmitted, client_Get_Build.
  unfold bind at 1, deref at 1, bind at 1, attempt at 1.
  rewrite (roundtrip_served _ _ _ Hserved).
  unfold store_Get_Build, absent_or_terminal, fetched in *.
  destruct (step_ambient_frame w) as (-> & _).
  destruct (builds w !! ident (Kit_ObjectMeta (kit_obj w))) as [b|]; simpl.
  - apply terminal_wanted in Hwanted. unfold bind at 1. simpl.
    now rewrite Hwanted.
  - reflexivity.
Qed.

Lemma triggerBuild_no_catalog (u : World) (env : Environment) (k1 : IntegrationKit) :
  trait_Apply u None (kit_obj u) = (Ok env, k1) ->
  Env_CamelCatalog env = None ->
  triggerBuild trait_Apply u
  = (Err (ErrNew "undefined camel catalog"),
     with_kit_obj k1 (record (CallApply (kit_obj u)) None u)).
Proof.
  intros Happly Hcatalog.
  unfold triggerBuild, bind, deref, trait_Apply_call, assign_kit, lift. simpl.
  rewrite Happly. simpl. now rewrite Hcatalog.
Qed.

(** C6. The Build is absent or terminal, so the handler builds anew, and the
    environment composed for the kit has no catalog.  Then the handler
    answers the error "undefined camel catalog"; the only calls made are the
    Get and the composition, so no Build is deleted or created, and the
    stored builds and kits are as before. *)
Theorem missing_catalog_fails_hard (w : World) (env : Environment) :
  fst (step_ambient w) = None ->
  absent_or_terminal w (ident (Kit_ObjectMeta (kit_obj w))) ->
  fst (trait_Apply (fetched w) None (kit_obj (fetched w))) = Ok env ->
  Env_CamelCatalog env = None ->
  let run := handleBuildSubmitted trait_Apply w in
  fst run = Err (ErrNew "undefined camel catalog") /\
  (exists o,
     calls w (snd run)
           [(CallGetBuild (ident (Kit_ObjectMeta (kit_obj w))), o);
            (CallApply (kit_obj (fetched w)), None)]) /\
  builds (snd run) = builds w /\
  kits (snd run) = kits w.
Proof.
  intros Hserved Hwanted Happly Hcatalog run. subst run.
  rewrite (handleBuildSubmitted_rebuild _ Hserved Hwanted).
  destruct (trait_Apply (fetched w) None (kit_obj (fetched w))) as [renv k1] eqn:Hpair.
  simpl in Happly. subst renv.
  unfold bind. rewrite (triggerBuild_no_catalog _ _ _ Hpair Hcatalog). simpl.
  destruct (step_ambient_frame w) as (Hb & Hk & _ & _ & Hl).
  split; [done|]. split; [|now split].
  eexists. unfold calls. simpl. rewrite Hl, <- app_assoc. reflexivity.
Qed.

(** Membership in a trace that is written out. *)
Ltac walk_trace :=
  intros;
  repeat match goal with
         | H : _ ∈ _ :: _ |- _ =>
             apply elem_of_cons in H as [H|H]; [try discriminate H|]
         | H : _ ∈ [] |- _ => apply elem_of_nil in H; destruct H
         end.

Lemma calls_trans (w u w' : World) (l1 l2 : list (Call * option error)) :
  calls w u l1 -> calls u w' l2 -> calls w w' (l1 ++ l2).
Proof. unfold calls. intros H1 H2. now rewrite H2, H1, <- app_assoc. Qed.

Lemma calls_fetched (w : World) :
  exists o,
    calls w (fetched w) [(CallGetBuild (ident (Kit_ObjectMeta (kit_obj w))), o)] /\
    (o = None \/ o = Some ErrNotFound).
Proof.
  destruct (step_ambient_frame w) as (_ & _ & _ & _ & Hl).
  unfold fetched, calls. simpl. rewrite Hl.
  destruct (builds w !! _); eauto.
Qed.

(** C10. In one pass over a kit in the submitted sub-phase: if the pipeline
    was composed, so that the Build is being made anew, no write to the kit
    is made and the stored kits are unchanged; a Build handed to Create has
    an unset status phase; a status update of the kit is made only when the
    Get was served with a Build in phase Running, it is then the only call
    after the Get, and it carries the kit with phase BuildRunning; and when
    the store holds no Running Build for the kit, the stored kits are
    unchanged. *)
Theorem advance_only_on_observed_running (w : World) :
  let id := ident (Kit_ObjectMeta (kit_obj w)) in
  let run := handleBuildSubmitted trait_Apply w in
  exists l,
    calls w (snd run) l /\
    (existsb is_apply l = true ->
     existsb is_kit_write l = false /\ kits (snd run) = kits w) /\
    (forall b o,
       (CallCreateBuild b, o) ∈ l ->
       BuildStatus_Phase (Build_Status b) = BuildPhaseNone) /\
    (forall k o,
       (CallStatusUpdateKit k, o) ∈ l ->
       (exists b, builds w !! id = Some b /\
                  BuildStatus_Phase (Build_Status b) = BuildPhaseRunning) /\
       k = set_Kit_Phase IntegrationKitPhaseBuildRunning
                         (kit_obj (snd (step_ambient w))) /\
       l = [(CallGetBuild id, None); (CallStatusUpdateKit k, o)] /\
       fst run = outcome_of o) /\
    ((forall b, builds w !! id = Some b ->
                BuildStatus_Phase (Build_Status b) <> BuildPhaseRunning) ->
     existsb is_kit_write l = false /\ kits (snd run) = kits w).
Proof.
  intros id run. subst id run.
  destruct (handleBuildSubmitted_cases w)
    as [msg Hfault Hr Hcalls Hb Hk
       | b Hserved Hlook Hnt Hnr Hr Hcalls Hb Hk
       | b o Hserved Hlook Hrunning Hr Hcalls Hb
       | rb Hserved Hwanted Hrun Htrig Hr Hk].
  - eexists. split; [exact Hcalls|]. simpl.
    split; [done|]. split; [walk_trace|]. split; [walk_trace|]. done.
  - eexists. split; [exact Hcalls|]. simpl.
    split; [done|]. split; [walk_trace|]. split; [walk_trace|]. done.
  - eexists. split; [exact Hcalls|]. simpl.
    split; [done|]. split; [walk_trace|].
    split.
    + walk_trace. injection H as -> ->. split; [eauto|]. done.
    + intros Hnone. exfalso. now apply (Hnone b).
  - destruct (calls_fetched w) as (og & Hget & _).
    destruct Htrig as [e Hrb Hcalls Hb
                      | msg Hrb Hcalls Hb
                      | b o e Hrb Ho Hid Hphase Hcalls Hb
                      | b o Hrb Ho Hid Hphase Hcalls Hb].
    all: eexists; split; [exact (calls_trans _ _ _ _ _ Hget Hcalls)|]; simpl.
    all: split; [done|]; split; [walk_trace; congruence|].
    all: split; [walk_trace|]; done.
Qed.

Lemma faultless_fetched (w : World) : faultless w -> faultless (fetched w).
Proof.
  unfold faultless, fetched, step_ambient. simpl.
  destruct (ambient w) as [|a rest] eqn:Hamb; simpl.
  - now rewrite Hamb.
  - intros H. now apply Forall_cons in H as [_ H].
Qed.

Lemma faultless_served (w : World) : faultless w -> fst (step_ambient w) = None.
Proof.
  unfold faultless, step_ambient.
  destruct (ambient w) as [|a rest]; simpl; [reflexivity|].
  intros H. now apply Forall_cons in H as [H _].
Qed.

Lemma triggerBuild_succeeds (u : World) (env : Environment) (k1 : IntegrationKit)
  (catalog : CamelCatalog) (platform : IntegrationPlatform) :
  trait_Apply u None (kit_obj u) = (Ok env, k1) ->
  Env_CamelCatalog env = Some catalog ->
  Env_Platform env = Some platform ->
  scheme u = true ->
  faultless u ->
  exists b, fst (triggerBuild trait_Apply u) = Ok b.
Proof.
  intros Happly Hcatalog Hplatform Hscheme Hquiet.
  unfold triggerBuild, bind, deref, trait_Apply_call, assign_kit, lift. simpl.
  rewrite Happly. simpl. rewrite Hcatalog, Hplatform. simpl.
  unfold SetControllerReference. simpl. rewrite Hscheme. simpl.
  unfold attempt, client_Delete_Build, client_Create_Build, roundtrip,
    step_ambient, store_Delete_Build, store_Create_Build.
  unfold faultless in Hquiet. cbn.
  destruct (ambient u) as [|[f1 e1] [|[f2 e2] rest]] eqn:Hamb; cbn.
  all: repeat match goal with
              | H : Forall _ (_ :: _) |- _ =>
                  apply Forall_cons in H as [? H]; simpl in *; subst
              end.
  all: repeat (simpl; rewrite ?Hamb; case_match; simplify_eq; simpl).
  all: try (eexists; reflexivity).
  all: simpl in *;
    match goal with
    | H : delete ?i _ !! ?i = Some _ |- _ => rewrite lookup_delete_eq in H; discriminate
    | H : ?m !! ?i = None, H' : ?m !! ?i = Some _ |- _ => congruence
    end.
Qed.

(** C2. Let the Get of the Build of the kit's identity be served.  The
    pipeline is composed, which opens the making of a new Build, exactly
    when the Build is absent or in phase Error, Interrupted or Succeeded.
    Otherwise no Delete and no Create is made and the stored builds are
    unchanged.  A Create is always directly preceded by a Delete of the
    same identity that was served or answered not-found, and every Delete
    is for the identity of the composed kit.  And when composition gives a
    catalog and a platform, the scheme knows the kit and no round-trip
    fails, the new Build is created and stored under that identity. *)
Theorem rebuild_iff_absent_or_terminal (w : World) :
  fst (step_ambient w) = None ->
  let id := ident (Kit_ObjectMeta (kit_obj w)) in
  let run := handleBuildSubmitted trait_Apply w in
  let composed := trait_Apply (fetched w) None (kit_obj (fetched w)) in
  exists l,
    calls w (snd run) l /\
    (absent_or_terminal w id <-> existsb is_apply l = true) /\
    (existsb is_delete l = true \/ existsb is_create l = true ->
     absent_or_terminal w id) /\
    (~ absent_or_terminal w id ->
     existsb is_delete l = false /\ existsb is_create l = false /\
     builds (snd run) = builds w) /\
    (forall b o,
       (CallCreateBuild b, o) ∈ l ->
       exists l0 o',
         l = (l0 ++ [(CallDeleteBuild (ident (Build_ObjectMeta b)), o');
                     (CallCreateBuild b, o)])%list /\
         (o' = None \/ o' = Some ErrNotFound)) /\
    (forall id' o,
       (CallDeleteBuild id', o) ∈ l -> id' = ident (Kit_ObjectMeta (snd composed))) /\
    (absent_or_terminal w id ->
     forall env catalog platform,
       fst composed = Ok env ->
       Env_CamelCatalog env = Some catalog ->
       Env_Platform env = Some platform ->
       scheme w = true ->
       faultless w ->
       fst run = Ok tt /\
       exists b,
         existsb (fun c => is_create c && succeeded c) l = true /\
         (CallCreateBuild b, None) ∈ l /\
         builds (snd run) !! ident (Kit_ObjectMeta (snd composed)) = Some b).
Proof.
  intros Hserved0 id run composed. subst id run composed.
  destruct (handleBuildSubmitted_cases w)
    as [msg Hfault Hr Hcalls Hb Hk
       | b Hserved Hlook Hnt Hnr Hr Hcalls Hb Hk
       | b o Hserved Hlook Hrunning Hr Hcalls Hb
       | rb Hserved Hwanted Hrun Htrig Hr Hk].
  - congruence.
  - assert (Hno : ~ absent_or_terminal w (ident (Kit_ObjectMeta (kit_obj w)))).
    { unfold absent_or_terminal. now rewrite Hlook. }
    eexists. split; [exact Hcalls|]. simpl.
    split; [split; [done | discriminate]|].
    split; [intros [|]; discriminate|].
    split; [done|]. split; [walk_trace|]. split; [walk_trace|]. done.
  - assert (Hno : ~ absent_or_terminal w (ident (Kit_ObjectMeta (kit_obj w)))).
    { unfold absent_or_terminal. rewrite Hlook.
      intros Ht. now apply terminal_not_running in Ht. }
    eexists. split; [exact Hcalls|]. simpl.
    split; [split; [done | discriminate]|].
    split; [intros [|]; discriminate|].
    split; [done|]. split; [walk_trace|]. split; [walk_trace|]. done.
  - destruct (calls_fetched w) as (og & Hget & _).
    assert (Hdone :
              forall env catalog platform,
                fst (trait_Apply (fetched w) None (kit_obj (fetched w))) = Ok env ->
                Env_CamelCatalog env = Some catalog ->
                Env_Platform env = Some platform ->
                scheme w = true -> faultless w ->
                exists nb, rb = Ok nb).
    { intros env catalog platform Happly Hcat Hplat Hscheme Hquiet.
      destruct (trait_Apply (fetched w) None (kit_obj (fetched w)))
        as [renv k1] eqn:Hpair. simpl in Happly. subst renv.
      destruct (triggerBuild_succeeds (fetched w) env k1 catalog platform)
        as [nb Hnb]; try done.
      - unfold fetched. simpl.
        destruct (step_ambient_frame w) as (_ & _ & _ & -> & _). exact Hscheme.
      - now apply faultless_fetched.
      - exists nb. rewrite Hrun in Hnb. exact Hnb. }
    destruct Htrig as [e Hrb Hcalls Hb
                      | msg Hrb Hcalls Hb
                      | b o e Hrb Ho Hid Hphase Hcalls Hb
                      | b o Hrb Ho Hid Hphase Hcalls Hb].
    all: eexists; split; [exact (calls_trans _ _ _ _ _ Hget Hcalls)|]; simpl.
    all: split; [split; [reflexivity | intros _; exact Hwanted]|].
    all: split; [intros _; exact Hwanted|].
    all: split; [intros Hno; exfalso; exact (Hno Hwanted)|].
    all: split;
      [ intros b' o' Hin; walk_trace;
        try (injection Hin as -> ->;
             exists [(CallGetBuild (ident (Kit_ObjectMeta (kit_obj w))), og);
                     (CallApply (kit_obj (snd (step_ambient w))), None)], o;
             split; [reflexivity | exact Ho]) |].
    all: split;
      [ intros id' o' Hin; walk_trace;
        try (injection Hin as -> _; first [reflexivity | exact Hid]) |].
    all: intros _ env catalog platform Happly Hcat Hplat Hscheme Hquiet.
    all: destruct (Hdone env catalog platform Happly Hcat Hplat Hscheme Hquiet)
      as [nb Hnb]; subst rb; try discriminate.
    injection Hnb as <-. split; [exact Hr|].
    exists b. split; [reflexivity|].
    split; [rewrite !elem_of_cons; auto 10|].
    simpl in Hid. rewrite Hb, <- Hid. apply lookup_insert_eq.
Qed.

Lemma creations_app (l1 l2 : list (Call * option error)) :
  creations (l1 ++ l2) = creations l1 + creations l2.
Proof. unfold creations. now rewrite List.filter_app, length_app. Qed.

Lemma creations_none (l : list (Call * option error)) :
  existsb is_create l = false -> creations l = 0.
Proof.
  unfold creations. induction l as [|c l IH]; simpl; [done|].
  intros H. apply orb_false_iff in H as [Hc Hl]. rewrite Hc. simpl. now apply IH.
Qed.

Lemma pass_summary (w : World) :
  let id := ident (Kit_ObjectMeta (kit_obj w)) in
  let run := handleBuildSubmitted trait_Apply w in
  let composed := trait_Apply (fetched w) None (kit_obj (fetched w)) in
  exists l,
    calls w (snd run) l /\
    (creations l = 0 \/
     (creations l = 1 /\
      exists b,
        (CallCreateBuild b, None) ∈ l /\
        BuildStatus_Phase (Build_Status b) = BuildPhaseNone /\
        builds (snd run) !! ident (Kit_ObjectMeta (snd composed)) = Some b)) /\
    ((exists b, builds w !! id = Some b /\ ~ terminal b) ->
     existsb is_delete l = false /\ existsb is_create l = false).
Proof.
  intros id run composed. subst id run composed.
  destruct (handleBuildSubmitted_cases w)
    as [msg Hfault Hr Hcalls Hb Hk
       | b Hserved Hlook Hnt Hnr Hr Hcalls Hb Hk
       | b o Hserved Hlook Hrunning Hr Hcalls Hb
       | rb Hserved Hwanted Hrun Htrig Hr Hk].
  1-3: eexists; split; [exact Hcalls|]; split; [now left | done].
  destruct (calls_fetched w) as (og & Hget & _).
  assert (Hkeep : (exists b, builds w !! ident (Kit_ObjectMeta (kit_obj w)) = Some b
                             /\ ~ terminal b) -> False).
  { intros (b & Hlook & Hnt). unfold absent_or_terminal in Hwanted.
    now rewrite Hlook in Hwanted. }
  destruct Htrig as [e Hrb Hcalls Hb
                    | msg Hrb Hcalls Hb
                    | b o e Hrb Ho Hid Hphase Hcalls Hb
                    | b o Hrb Ho Hid Hphase Hcalls Hb].
  all: eexists; split; [exact (calls_trans _ _ _ _ _ Hget Hcalls)|].
  1-3: split; [now left | intros H; destruct (Hkeep H)].
  split; [|intros H; destruct (Hkeep H)].
  right. split; [reflexivity|]. exists b.
  split; [simpl; rewrite !elem_of_cons; auto 10|]. split; [exact Hphase|].
  rewrite Hb, <- Hid. apply lookup_insert_eq.
Qed.

(** C7. Let composition keep the identity of the kit it is given.  Run the
    submitted handling on a kit, then run it again on the same kit with the
    store as the first run left it.  The two runs together create at most
    one Build; and when the first run created one, the second finds it
    under the kit's identity in an unset, non-terminal phase, and makes no
    Delete and no Create. *)
Theorem submitted_twice_creates_once (w : World) (kit : IntegrationKit)
  (script : list Ambient) :
  (forall u i k,
     ident (Kit_ObjectMeta (snd (trait_Apply u i k))) = ident (Kit_ObjectMeta k)) ->
  ident (Kit_ObjectMeta kit) = ident (Kit_ObjectMeta (kit_obj w)) ->
  let first := handleBuildSubmitted trait_Apply w in
  let again := later_pass kit script (snd first) in
  let second := handleBuildSubmitted trait_Apply again in
  exists l1 l2,
    calls w (snd first) l1 /\
    calls again (snd second) l2 /\
    creations (l1 ++ l2) <= 1 /\
    (creations l1 = 1 ->
     (exists b,
        (CallCreateBuild b, None) ∈ l1 /\
        builds again !! ident (Kit_ObjectMeta kit) = Some b /\
        BuildStatus_Phase (Build_Status b) = BuildPhaseNone /\
        ~ terminal b) /\
     existsb is_delete l2 = false /\
     existsb is_create l2 = false).
Proof.
  intros Hkeeps Hsame first again second. subst first second.
  destruct (pass_summary w) as (l1 & Hl1 & Hcount1 & _).
  destruct (pass_summary again) as (l2 & Hl2 & Hcount2 & Hleft).
  exists l1, l2. split; [exact Hl1|]. split; [exact Hl2|].
  assert (Hwhen : creations l1 = 1 ->
                  (exists b,
                     (CallCreateBuild b, None) ∈ l1 /\
                     builds again !! ident (Kit_ObjectMeta kit) = Some b /\
                     BuildStatus_Phase (Build_Status b) = BuildPhaseNone /\
                     ~ terminal b) /\
                  existsb is_delete l2 = false /\
                  existsb is_create l2 = false).
  { intros Hone. destruct Hcount1 as [Hzero | (_ & b & Hin & Hphase & Hstored)];
      [congruence|].
    rewrite Hkeeps in Hstored. simpl in Hstored.
    rewrite step_ambient_meta, <- Hsame in Hstored.
    assert (Hnt : ~ terminal b).
    { intros [H | [H | H]]; rewrite Hphase in H; discriminate. }
    split; [exists b; auto|].
    apply Hleft. exists b. split; [|exact Hnt]. exact Hstored. }
  split; [|exact Hwhen].
  rewrite creations_app.
  destruct Hcount1 as [Hzero | (Hone & _)].
  - rewrite Hzero. destruct Hcount2 as [-> | (-> & _)]; lia.
  - destruct (Hwhen Hone) as (_ & _ & Hnone).
    rewrite Hone, (creations_none _ Hnone). lia.
Qed.

End Properties.

Section Pipeline.

Variable DefaultSteps : list Step.

(** C8. Let no shared step be tagged ApplicationPublish, and let the kit
    have a phase.  Then composition for Kubernetes with strategy Kaniko and
    composition for OpenShift with strategy S2I both answer; the first has
    exactly one step tagged ApplicationPublish, the Kaniko publisher; the
    second has exactly one, the S2I publisher; and the two sequences have
    the same number of steps. *)
Theorem publish_slot_by_platform (kit : IntegrationKit) :
  forallb (fun s => negb (tagged_publish s)) DefaultSteps = true ->
  KitStatus_Phase (Kit_Status kit) <> "" ->
  exists ks ss,
    compose_steps DefaultSteps
      (platform_of IntegrationPlatformClusterKubernetes
                   IntegrationPlatformBuildPublishStrategyKaniko) (Some kit)
    = Some ks /\
    compose_steps DefaultSteps
      (platform_of IntegrationPlatformClusterOpenShift
                   IntegrationPlatformBuildPublishStrategyS2I) (Some kit)
    = Some ss /\
    List.filter tagged_publish ks = [kaniko_Publisher] /\
    List.filter tagged_publish ss = [s2i_Publisher] /\
    length ss = length ks.
Proof.
  intros Hshared Hphase.
  assert (Hnone : List.filter tagged_publish DefaultSteps = []).
  { clear Hphase. induction DefaultSteps as [|s l IH]; simpl in *; [done|].
    apply andb_true_iff in Hshared as [Hs Hl].
    apply negb_true_iff in Hs. rewrite Hs. now apply IH. }
  apply String.eqb_neq in Hphase.
  unfold compose_steps. rewrite Hphase. simpl.
  eexists _, _. split; [reflexivity|]. split; [reflexivity|].
  rewrite !List.filter_app, Hnone, !length_app. simpl. auto.
Qed.

End Pipeline.

(** ** Further properties of the actions *)

(** *** Monitoring a Build *)

(** X1. Whatever error the Get of the Build answers while the kit is being
    monitored, not-found included, is the handler's answer; the Get is the
    only call made and the stored builds, kits and integrations are as
    before. *)
Theorem monitor_returns_fetch_error (w : World) (e : error) :
  let id := ident (Kit_ObjectMeta (kit_obj w)) in
  fst (client_Get_Build id w) = Err e ->
  fst (handleBuildRunning w) = Err e /\
  calls w (snd (handleBuildRunning w)) [(CallGetBuild id, Some e)] /\
  builds (snd (handleBuildRunning w)) = builds w /\
  kits (snd (handleBuildRunning w)) = kits w /\
  integrations (snd (handleBuildRunning w)) = integrations w.
Proof.
  intros id Hget.
  assert (Hrun : handleBuildRunning w = (Err e, snd (client_Get_Build id w))).
  { unfold handleBuildRunning, bind, deref. fold id.
    destruct (client_Get_Build id w) as [r w1]. simpl in Hget. now subst r. }
  rewrite Hrun. simpl. split; [done|].
  destruct (step_ambient_frame w) as (Hb & Hk & Hi & _ & Hl).
  unfold client_Get_Build, roundtrip in *.
  destruct (step_ambient w) as [[msg|] w1]; simpl in *.
  - injection Hget as <-. unfold calls. simpl. now rewrite Hl.
  - unfold store_Get_Build in *. rewrite Hb in *.
    destruct (builds w !! id); simpl in *; [discriminate|].
    injection Hget as <-. unfold calls. simpl. now rewrite Hl.
Qed.

(** X2. When the Build comes back in a phase that is none of Succeeded,
    Error and Interrupted (Running, unset or any other), monitoring answers
    success; the Get is the only call made and nothing stored changes. *)
Theorem unfinished_build_is_left_alone (w : World) (build : Build) :
  let id := ident (Kit_ObjectMeta (kit_obj w)) in
  fst (step_ambient w) = None ->
  builds w !! id = Some build ->
  BuildStatus_Phase (Build_Status build) <> BuildPhaseSucceeded ->
  BuildStatus_Phase (Build_Status build) <> BuildPhaseError ->
  BuildStatus_Phase (Build_Status build) <> BuildPhaseInterrupted ->
  fst (handleBuildRunning w) = Ok tt /\
  calls w (snd (handleBuildRunning w)) [(CallGetBuild id, None)] /\
  builds (snd (handleBuildRunning w)) = builds w /\
  kits (snd (handleBuildRunning w)) = kits w /\
  integrations (snd (handleBuildRunning w)) = integrations w.
Proof.
  intros id Hserved Hbuild Hs He Hi.
  destruct (step_ambient_frame w) as (Hb & Hk & Hint & _ & Hl).
  assert (Hrun : handleBuildRunning w
                 = (Ok tt, record (CallGetBuild id) None (snd (step_ambient w)))).
  { unfold handleBuildRunning, bind, deref, client_Get_Build.
    rewrite roundtrip_served by done. unfold store_Get_Build.
    fold id. rewrite Hb, Hbuild. simpl.
    apply String.eqb_neq in Hs, He, Hi. rewrite Hs, He, Hi.
    now destruct (String.eqb _ BuildPhaseRunning). }
  rewrite Hrun. simpl. unfold calls. simpl. rewrite Hl. auto.
Qed.

(** X3. When the Build comes back Error or Interrupted and the kit is still
    in phase BuildRunning, the handler makes exactly one more call, a status
    update of the kit whose status has phase Error and the Build's failure
    and is otherwise the kit's own, and answers with the outcome of that
    call.  No integration is listed or changed, and once the update is
    served the stored kit carries that status. *)
Theorem failed_build_marks_kit_error (w : World) (build : Build) :
  let id := ident (Kit_ObjectMeta (kit_obj w)) in
  let kit := kit_obj (snd (step_ambient w)) in
  let target := failed_target kit build in
  fst (step_ambient w) = None ->
  builds w !! id = Some build ->
  BuildStatus_Phase (Build_Status build) = BuildPhaseError \/
  BuildStatus_Phase (Build_Status build) = BuildPhaseInterrupted ->
  KitStatus_Phase (Kit_Status kit) = IntegrationKitPhaseBuildRunning ->
  (KitStatus_Phase (Kit_Status target) = IntegrationKitPhaseError /\
   KitStatus_Failure (Kit_Status target) = BuildStatus_Failure (Build_Status build) /\
   KitStatus_Image (Kit_Status target) = KitStatus_Image (Kit_Status kit) /\
   KitStatus_BaseImage (Kit_Status target) = KitStatus_BaseImage (Kit_Status kit) /\
   KitStatus_PublicImage (Kit_Status target) = KitStatus_PublicImage (Kit_Status kit) /\
   KitStatus_Digest (Kit_Status target) = KitStatus_Digest (Kit_Status kit) /\
   KitStatus_Artifacts (Kit_Status target) = KitStatus_Artifacts (Kit_Status kit)) /\
  (exists o,
     calls w (snd (handleBuildRunning w))
           [(CallGetBuild id, None); (CallStatusUpdateKit target, o)] /\
     fst (handleBuildRunning w) = outcome_of o /\
     (o = None ->
      forall old, kits w !! id = Some old ->
                  kits (snd (handleBuildRunning w)) !! id
                  = Some (set_Kit_Status (Kit_Status target) old))) /\
  builds (snd (handleBuildRunning w)) = builds w /\
  integrations (snd (handleBuildRunning w)) = integrations w.
Proof.
  intros id kit target Hserved Hbuild Hphase Hkit.
  split; [now repeat split|].
  destruct (step_ambient_frame w) as (Hb & Hk & Hint & _ & Hl).
  assert (Hrun : handleBuildRunning w
                 = client_StatusUpdate_Kit target
                     (record (CallGetBuild id) None (snd (step_ambient w)))).
  { unfold handleBuildRunning, bind, deref, client_Get_Build.
    rewrite roundtrip_served by done. unfold store_Get_Build.
    fold id. rewrite Hb, Hbuild. simpl.
    destruct Hphase as [Hp | Hp]; rewrite Hp; simpl; fold kit;
      rewrite Hkit; reflexivity. }
  rewrite Hrun. clear Hrun.
  assert (Hid : ident (Kit_ObjectMeta target) = id).
  { subst target kit id. simpl. now rewrite step_ambient_meta. }
  unfold client_StatusUpdate_Kit, roundtrip.
  match goal with
  | |- context [step_ambient ?v] =>
      pose proof (step_ambient_frame v) as (Hb2 & Hk2 & Hi2 & _ & Hl2);
      destruct (step_ambient v) as [[msg|] w2]
  end; simpl in *.
  - split; [|split; congruence].
    exists (Some (ErrTransient msg)). split; [|split; [done|done]].
    unfold calls. simpl. now rewrite Hl2, Hl, <- app_assoc.
  - unfold store_StatusUpdate_Kit. simpl. rewrite Hid, Hk2, Hk.
    destruct (kits w !! id) as [old|] eqn:Hold; simpl.
    + split; [|split; congruence].
      exists None. split; [unfold calls; simpl; now rewrite Hl2, Hl, <- app_assoc|].
      split; [done|]. intros _ old' [= <-]. apply lookup_insert_eq.
    + split; [|split; congruence].
      exists (Some ErrNotFound).
      split; [unfold calls; simpl; now rewrite Hl2, Hl, <- app_assoc|].
      split; [done|done].
Qed.

(** *** Notifying the integrations *)

Lemma faultless_step (w : World) : faultless w -> faultless (snd (step_ambient w)).
Proof.
  unfold faultless, step_ambient.
  destruct (ambient w) as [|a rest] eqn:Hamb; simpl.
  - now rewrite Hamb.
  - intros H. now apply Forall_cons in H as [_ H].
Qed.

Lemma informLoop_served (name : string) (items : list Integration) (w : World) :
  NoDup (key <$> items) ->
  Forall (fun i => integrations w !! key i = Some i) items ->
  faultless w ->
  fst (informLoop name items w) = Ok tt.
Proof.
  revert w. induction items as [|i items IH]; intros w Hnd Hall Hquiet; [done|].
  rewrite fmap_cons, NoDup_cons in Hnd. destruct Hnd as [Hi Hnd].
  apply Forall_cons in Hall as [Hlook Hall]. simpl.
  destruct (negb _); [now apply IH|].
  unfold bind, client_StatusUpdate_Integration.
  rewrite (roundtrip_served _ _ _ (faultless_served _ Hquiet)).
  unfold store_StatusUpdate_Integration.
  destruct (step_ambient_frame w) as (_ & _ & Hint & _).
  change (ident (Integration_ObjectMeta (set_Integration_Phase
            IntegrationPhaseResolvingKit i))) with (key i).
  rewrite Hint, Hlook. simpl. apply IH; [done| |].
  - simpl. apply Forall_forall. intros j Hj.
    rewrite lookup_insert_ne.
    + rewrite Forall_forall in Hall. now apply Hall.
    + intros Heq. apply Hi. rewrite Heq. now apply list_elem_of_fmap_2.
  - apply faultless_step in Hquiet. exact Hquiet.
Qed.

Lemma key_resolving (i : Integration) : key (resolving i) = key i.
Proof. reflexivity. Qed.

Lemma notified_key (kit : IntegrationKit) (i : Integration) :
  key (notified kit i) = key i.
Proof. unfold notified. now destruct (decide _). Qed.

Lemma notified_again (kit : IntegrationKit) (i : Integration) :
  notified kit (notified kit i) = notified kit i.
Proof.
  unfold notified. destruct (decide (bound_to kit i)) as [Hb|Hn].
  - destruct (decide (bound_to kit (resolving i))); [|done].
    now destruct i as [m [p k]].
  - now destruct (decide (bound_to kit i)).
Qed.

Lemma informIntegrations_run (kit : IntegrationKit) (w : World) :
  well_keyed (integrations w) ->
  faultless w ->
  fst (informIntegrations kit w) = Ok tt /\
  integrations (snd (informIntegrations kit w))
  = updated (integrations w) (bound_items kit (integrations w)).
Proof.
  intros Hwk Hquiet.
  unfold informIntegrations, bind, client_List_Integrations.
  rewrite (roundtrip_served _ _ _ (faultless_served _ Hquiet)).
  unfold store_List_Integrations. simpl.
  destruct (step_ambient_frame w) as (_ & _ & Hint & _ & _).
  set (ns := Namespace (Kit_ObjectMeta kit)).
  set (name := Name (Kit_ObjectMeta kit)).
  set (items := filter (in_namespace ns) (map_to_list (integrations (snd (step_ambient w)))).*2).
  set (w2 := record (CallListIntegrations ns) None (snd (step_ambient w))).
  assert (Hnd : NoDup (key <$> items)).
  { apply listing_NoDup; [apply NoDup_fst_map_to_list|].
    apply Forall_forall. intros [id i] Hin. simpl.
    apply elem_of_map_to_list in Hin. rewrite Hint in Hin. eauto. }
  assert (Hall : Forall (fun i => integrations w2 !! key i = Some i) items).
  { apply Forall_forall. intros i Hi. simpl. subst items. rewrite Hint in *.
    now apply listing_stored in Hi as [Hi _]. }
  assert (Hquiet2 : faultless w2).
  { apply faultless_step in Hquiet. exact Hquiet. }
  pose proof (informLoop_served name items w2 Hnd Hall Hquiet2) as Hok.
  destruct (informLoop_spec name items w2 Hnd Hall)
    as (done & rest & Hsplit & Hstore & Hout).
  rewrite Hok in Hout. destruct Hout as [-> _]. rewrite app_nil_r in Hsplit.
  split; [exact Hok|].
  rewrite Hstore. simpl. subst done items. rewrite Hint. reflexivity.
Qed.

Lemma updated_bound_items (kit : IntegrationKit)
  (m : gmap (string * string) Integration) :
  well_keyed m -> updated m (bound_items kit m) = notified kit <$> m.
Proof.
  intros Hwk. unfold bound_items.
  set (ns := Namespace (Kit_ObjectMeta kit)).
  set (name := Name (Kit_ObjectMeta kit)).
  set (items := filter (in_namespace ns) (map_to_list m).*2).
  assert (Hnd : NoDup (key <$> items)).
  { apply listing_NoDup; [apply NoDup_fst_map_to_list|].
    apply Forall_forall. intros [id i] Hin. simpl.
    apply elem_of_map_to_list in Hin. eauto. }
  assert (Hitems : forall i, i ∈ items <-> m !! key i = Some i /\ in_namespace ns i).
  { intros i. subst items. now apply listing_stored. }
  assert (Hnd' : NoDup (key <$> filter (refers_to name) items)).
  { eapply sublist_NoDup; [exact Hnd|]. apply fmap_sublist, sublist_filter. }
  apply map_eq. intros id. rewrite lookup_fmap.
  destruct (m !! id) as [i|] eqn:Hlook; simpl.
  - pose proof (Hwk _ _ Hlook) as Hkey. unfold notified.
    destruct (decide (bound_to kit i)) as [[Hns Href]|Hnot].
    + rewrite <- Hkey. apply lookup_updated_member; [done|].
      apply list_elem_of_filter. split; [done|]. apply Hitems. now rewrite Hkey.
    + rewrite lookup_updated_other; [done|].
      intros Hin. apply list_elem_of_fmap in Hin as (j & Hj & Hjin).
      apply list_elem_of_filter in Hjin as [Href Hjin].
      apply Hitems in Hjin as [Hjlook Hns].
      rewrite <- Hj, Hlook in Hjlook. injection Hjlook as <-.
      apply Hnot. now split.
  - rewrite lookup_updated_other; [done|].
    intros Hin. apply list_elem_of_fmap in Hin as (j & -> & Hjin).
    apply list_elem_of_filter in Hjin as [_ Hjin].
    apply Hitems in Hjin as [Hjlook _]. congruence.
Qed.

Lemma informIntegrations_served (kit : IntegrationKit) (w : World) :
  well_keyed (integrations w) ->
  faultless w ->
  fst (informIntegrations kit w) = Ok tt /\
  integrations (snd (informIntegrations kit w)) = notified kit <$> integrations w.
Proof.
  intros Hwk Hquiet.
  destruct (informIntegrations_run kit w Hwk Hquiet) as [Hok Hstore].
  split; [exact Hok|]. rewrite Hstore. now apply updated_bound_items.
Qed.

(** X5. In a store that keeps every integration under its own identity,
    and when no round-trip fails, the notification answers success and the
    integrations it leaves are the ones it found, with the phase of each one
    that is in the kit's namespace and records the kit's name set to
    ResolvingKit and every other one as it was. *)
Theorem notification_reaches_every_bound_integration
  (kit : IntegrationKit) (w : World) :
  well_keyed (integrations w) ->
  faultless w ->
  fst (informIntegrations kit w) = Ok tt /\
  integrations (snd (informIntegrations kit w)) = notified kit <$> integrations w.
Proof.
  intros Hwk Hquiet.
  destruct (informIntegrations_run kit w Hwk Hquiet) as [Hok Hstore].
  split; [exact Hok|].
  rewrite Hstore. apply updated_bound_items. exact Hwk.
Qed.

(** X6. Under the same conditions, notifying a second time changes no
    integration: the store after two notifications is the store after
    one. *)
Theorem notification_is_idempotent (kit : IntegrationKit) (w : World)
  (script : list Ambient) :
  well_keyed (integrations w) ->
  faultless w ->
  Forall (fun a => fault a = None) script ->
  let once := snd (informIntegrations kit w) in
  fst (informIntegrations kit (with_ambient script once)) = Ok tt /\
  integrations (snd (informIntegrations kit (with_ambient script once)))
  = integrations once.
Proof.
  intros Hwk Hquiet Hscript once.
  destruct (informIntegrations_served kit w Hwk Hquiet) as [_ Honce].
  fold once in Honce.
  assert (Hwk' : well_keyed (integrations (with_ambient script once))).
  { simpl. rewrite Honce. intros id i Hlook.
    rewrite lookup_fmap in Hlook.
    destruct (integrations w !! id) as [j|] eqn:Hj; simpl in Hlook; [|done].
    injection Hlook as <-. rewrite notified_key. now apply Hwk. }
  destruct (informIntegrations_served kit (with_ambient script once) Hwk' Hscript)
    as [Hok Htwice].
  split; [exact Hok|]. rewrite Htwice. simpl. rewrite Honce.
  rewrite <- map_fmap_compose. apply map_fmap_ext. intros id i _.
  apply notified_again.
Qed.

Ltac in_trace :=
  intros;
  repeat match goal with
         | H : _ ∈ _ :: _ |- _ =>
             apply elem_of_cons in H as [H|H]; [try discriminate H|]
         | H : _ ∈ [] |- _ => apply elem_of_nil in H; destruct H
         end.

Lemma informLoop_trace (name : string) (items : list Integration) (w : World) :
  exists l,
    calls w (snd (informLoop name items w)) l /\
    forall c, c ∈ l ->
              exists i o, c = (CallStatusUpdateIntegration (resolving i), o) /\
                          i ∈ items /\ refers_to name i.
Proof.
  revert w. induction items as [|i items IH]; intros w; simpl.
  - exists []. split; [unfold calls; now rewrite app_nil_r|]. in_trace.
  - destruct (String.eqb_spec (IntegrationStatus_Kit (Integration_Status i)) name)
      as [Hname|Hname]; simpl.
    + unfold bind.
      change (set_Integration_Phase IntegrationPhaseResolvingKit i)
        with (resolving i).
      destruct (client_StatusUpdate_Integration (resolving i) w) as [r w1] eqn:Hcall.
      assert (Hlog : calls w w1 [(CallStatusUpdateIntegration (resolving i), is_Err r)]).
      { unfold client_StatusUpdate_Integration, roundtrip in Hcall.
        destruct (step_ambient_frame w) as (_ & _ & _ & _ & Hl).
        destruct (step_ambient w) as [[msg|] v]; simpl in *.
        - injection Hcall as <- <-. unfold calls. simpl. now rewrite Hl.
        - destruct (store_StatusUpdate_Integration _ v) as [r' v'] eqn:Hop.
          injection Hcall as <- <-.
          unfold store_StatusUpdate_Integration in Hop.
          destruct (integrations v !! _); injection Hop as <- <-;
            unfold calls; simpl; now rewrite Hl. }
      destruct r as [[]|e]; simpl.
      * destruct (IH w1) as (l & Hl & Hall).
        exists ((CallStatusUpdateIntegration (resolving i), None) :: l).
        split; [exact (calls_trans _ _ _ _ _ Hlog Hl)|].
        intros c Hc. apply elem_of_cons in Hc as [-> | Hc].
        -- exists i, None. split; [done|]. split; [apply elem_of_cons; now left|done].
        -- destruct (Hall c Hc) as (j & o & -> & Hj & Href).
           exists j, o. split; [done|]. split; [apply elem_of_cons; now right|done].
      * exists [(CallStatusUpdateIntegration (resolving i), Some e)].
        split; [exact Hlog|]. intros c Hc. apply list_elem_of_singleton in Hc as ->.
        exists i, (Some e). split; [done|]. split; [apply elem_of_cons; now left|done].
    + destruct (IH w) as (l & Hl & Hall). exists l. split; [exact Hl|].
      intros c Hc. destruct (Hall c Hc) as (j & o & -> & Hj & Href).
      exists j, o. split; [done|]. split; [apply elem_of_cons; now right|done].
Qed.

(** X7. Whatever the store holds and whatever fails, the notification calls
    nothing but one List followed by status updates of integrations; every
    such update, served or not, is for an integration of the kit's
    namespace that records the kit's name, and carries phase ResolvingKit;
    the stored builds and kits are not touched. *)
Theorem notification_only_lists_and_updates (kit : IntegrationKit) (w : World) :
  exists l,
    calls w (snd (informIntegrations kit w)) l /\
    forallb is_notification l = true /\
    (forall j o,
       (CallStatusUpdateIntegration j, o) ∈ l ->
       Namespace (Integration_ObjectMeta j) = Namespace (Kit_ObjectMeta kit) /\
       IntegrationStatus_Kit (Integration_Status j) = Name (Kit_ObjectMeta kit) /\
       IntegrationStatus_Phase (Integration_Status j) = IntegrationPhaseResolvingKit) /\
    builds (snd (informIntegrations kit w)) = builds w /\
    kits (snd (informIntegrations kit w)) = kits w.
Proof.
  destruct (informIntegrations_frame kit w) as [Hb Hk].
  unfold informIntegrations, bind, client_List_Integrations, roundtrip in *.
  destruct (step_ambient_frame w) as (_ & _ & _ & _ & Hl).
  destruct (step_ambient w) as [[msg|] w1]; simpl in *.
  { eexists. split; [unfold calls; simpl; now rewrite Hl|].
    split; [reflexivity|]. split; [in_trace|]. now split. }
  match goal with
  | |- context [informLoop ?n ?items ?v] =>
      destruct (informLoop_trace n items v) as (l & Hcalls & Hall)
  end.
  exists ((CallListIntegrations (Namespace (Kit_ObjectMeta kit)), None) :: l).
  split.
  { unfold calls in *. rewrite Hcalls. simpl. now rewrite Hl, <- app_assoc. }
  split.
  { simpl. apply forallb_forall. intros c Hc. apply list_elem_of_In in Hc.
    destruct (Hall c Hc) as (i & o & -> & _). reflexivity. }
  split; [|now split].
  intros j o Hin. apply elem_of_cons in Hin as [[=]|Hin].
  destruct (Hall _ Hin) as (i & o' & [= -> ->] & Hi & Href).
  apply list_elem_of_filter in Hi as [Hns _].
  split; [exact Hns|]. split; [exact Href|reflexivity].
Qed.

Lemma notified_same_meta (k1 k2 : IntegrationKit) (i : Integration) :
  Kit_ObjectMeta k1 = Kit_ObjectMeta k2 -> notified k1 i = notified k2 i.
Proof.
  intros Hmeta. unfold notified.
  destruct (decide (bound_to k1 i)) as [H1|H1], (decide (bound_to k2 i)) as [H2|H2];
    try reflexivity; exfalso; unfold bound_to in *; rewrite Hmeta in *; tauto.
Qed.

(** X4. A kit is monitored in a world where no round-trip fails and every
    integration is stored under its own identity; its Build comes back
    Succeeded and the kit is still in phase BuildRunning.  Then the handler
    answers success, the stored kit carries the Ready status assembled from
    the Build, every integration of the namespace that records the kit's
    name is in phase ResolvingKit and every other one is as it was, and the
    stored builds are untouched. *)
Theorem succeeded_build_readies_kit_and_notifies (w : World) (build : Build)
  (old : IntegrationKit) :
  let id := ident (Kit_ObjectMeta (kit_obj w)) in
  let kit := kit_obj (snd (step_ambient w)) in
  faultless w ->
  well_keyed (integrations w) ->
  builds w !! id = Some build ->
  BuildStatus_Phase (Build_Status build) = BuildPhaseSucceeded ->
  KitStatus_Phase (Kit_Status kit) = IntegrationKitPhaseBuildRunning ->
  kits w !! id = Some old ->
  fst (handleBuildRunning w) = Ok tt /\
  kits (snd (handleBuildRunning w)) !! id
  = Some (set_Kit_Status (Kit_Status (ready_target kit build)) old) /\
  integrations (snd (handleBuildRunning w))
  = notified (kit_obj w) <$> integrations w /\
  builds (snd (handleBuildRunning w)) = builds w.
Proof.
  intros id kit Hquiet Hwk Hbuild Hphase Hkit Hold.
  pose proof (faultless_served _ Hquiet) as Hserved.
  destruct (step_ambient_frame w) as (Hb & Hk & Hint & _ & _).
  set (target := ready_target kit build).
  set (observed := record (CallGetBuild id) None (snd (step_ambient w))).
  assert (Hrun : handleBuildRunning w
                 = (_ <- client_StatusUpdate_Kit target ;;
                    informIntegrations target) observed).
  { unfold handleBuildRunning, bind, deref, client_Get_Build.
    rewrite roundtrip_served by done. unfold store_Get_Build.
    fold id. rewrite Hb, Hbuild. simpl. rewrite Hphase. simpl.
    fold kit. now rewrite Hkit. }
  rewrite Hrun. clear Hrun. unfold bind.
  assert (Hquiet1 : faultless observed).
  { apply faultless_step in Hquiet. exact Hquiet. }
  assert (Hid : ident (Kit_ObjectMeta target) = id).
  { subst target kit id. simpl. now rewrite step_ambient_meta. }
  unfold client_StatusUpdate_Kit.
  rewrite (roundtrip_served _ _ _ (faultless_served _ Hquiet1)).
  unfold store_StatusUpdate_Kit.
  destruct (step_ambient_frame observed) as (Hb1 & Hk1 & Hint1 & _ & _).
  rewrite Hid, Hk1. simpl. rewrite Hk, Hold. simpl.
  match goal with
  | |- context [informIntegrations target ?v] => set (w3 := v)
  end.
  assert (Hquiet3 : faultless w3).
  { apply faultless_step in Hquiet1. exact Hquiet1. }
  assert (Hint3 : integrations w3 = integrations w).
  { subst w3. simpl. now rewrite Hint1. }
  assert (Hwk3 : well_keyed (integrations w3)) by now rewrite Hint3.
  destruct (informIntegrations_served target w3 Hwk3 Hquiet3) as [Hok Hstore].
  destruct (informIntegrations_frame target w3) as [Hb3 Hk3].
  split; [exact Hok|].
  split; [rewrite Hk3; subst w3; simpl; apply lookup_insert_eq|].
  split.
  - rewrite Hstore, Hint3. apply map_fmap_ext. intros j i _.
    apply notified_same_meta. subst target kit. simpl. apply step_ambient_meta.
  - rewrite Hb3. subst w3. simpl. now rewrite Hb1.
Qed.

(** *** The order of the calls while monitoring *)

Lemma informIntegrations_trace (kit : IntegrationKit) (w : World) :
  exists l,
    calls w (snd (informIntegrations kit w)) l /\
    forallb is_notification l = true.
Proof.
  unfold informIntegrations, bind, client_List_Integrations, roundtrip.
  destruct (step_ambient_frame w) as (_ & _ & _ & _ & Hl).
  destruct (step_ambient w) as [[msg|] w1]; simpl in *.
  { eexists. split; [unfold calls; simpl; now rewrite Hl | reflexivity]. }
  match goal with
  | |- context [informLoop ?n ?items ?v] =>
      destruct (informLoop_trace n items v) as (l & Hcalls & Hall)
  end.
  exists ((CallListIntegrations (Namespace (Kit_ObjectMeta kit)), None) :: l).
  split.
  { unfold calls in *. rewrite Hcalls. simpl. now rewrite Hl, <- app_assoc. }
  simpl. apply forallb_forall. intros c Hc. apply list_elem_of_In in Hc.
  destruct (Hall c Hc) as (i & o & -> & _). reflexivity.
Qed.

Lemma client_StatusUpdate_Kit_trace (k : IntegrationKit) (w : World) :
  exists o,
    calls w (snd (client_StatusUpdate_Kit k w)) [(CallStatusUpdateKit k, o)] /\
    fst (client_StatusUpdate_Kit k w) = outcome_of o /\
    builds (snd (client_StatusUpdate_Kit k w)) = builds w /\
    integrations (snd (client_StatusUpdate_Kit k w)) = integrations w.
Proof.
  unfold client_StatusUpdate_Kit, roundtrip, store_StatusUpdate_Kit.
  destruct (step_ambient_frame w) as (Hb & _ & Hi & _ & Hl).
  destruct (step_ambient w) as [[msg|] w1]; simpl in *.
  - exists (Some (ErrTransient msg)). unfold calls. simpl. now rewrite Hl.
  - destruct (kits w1 !! _); simpl.
    + exists None. unfold calls. simpl. now rewrite Hl.
    + exists (Some ErrNotFound). unfold calls. simpl. now rewrite Hl.
Qed.

(** X17. Whatever the store holds and whatever fails, a monitoring pass
    begins with the Get of the Build named like the kit and never writes a
    Build.  After the Get it makes no call at all, or one status update of
    the kit, and that only when the Get was served; the update is for the
    kit's own identity and carries phase Ready or phase Error.
    Integrations are listed or updated only after a Ready update that was
    served, never after an Error update; and when an update fails, its
    error is the handler's answer. *)
Theorem monitoring_notifies_only_after_ready_update (w : World) :
  let id := ident (Kit_ObjectMeta (kit_obj w)) in
  let run := handleBuildRunning w in
  exists o l,
    calls w (snd run) ((CallGetBuild id, o) :: l) /\
    builds (snd run) = builds w /\
    ((l = [] /\ kits (snd run) = kits w /\ integrations (snd run) = integrations w) \/
     exists k o' n,
       l = (CallStatusUpdateKit k, o') :: n /\
       o = None /\
       ident (Kit_ObjectMeta k) = id /\
       forallb is_notification n = true /\
       (KitStatus_Phase (Kit_Status k) = IntegrationKitPhaseReady \/
        (KitStatus_Phase (Kit_Status k) = IntegrationKitPhaseError /\ n = [])) /\
       (o' <> None -> n = [] /\ fst run = outcome_of o')).
Proof.
  intros id run. subst run.
  destruct (handleBuildRunning w) as [r w'] eqn:Hrun. simpl.
  destruct (step_ambient_frame w) as (Hb & Hk & Hi & _ & Hl).
  pose proof (step_ambient_meta w) as Hmeta.
  unfold handleBuildRunning, bind, deref, client_Get_Build, roundtrip in Hrun.
  fold id in Hrun.
  destruct (step_ambient w) as [[msg|] w1]; simpl in *.
  { injection Hrun as <- <-.
    exists (Some (ErrTransient msg)), []. unfold calls. simpl. rewrite Hl. auto 8. }
  unfold store_Get_Build in Hrun. rewrite Hb in Hrun.
  destruct (builds w !! id) as [build|]; simpl in Hrun.
  2: { injection Hrun as <- <-.
       exists (Some ErrNotFound), []. unfold calls. simpl. rewrite Hl. auto 8. }
  set (u := record (CallGetBuild id) None w1) in *.
  assert (Hu : calls w u [(CallGetBuild id, None)]).
  { unfold calls, u. simpl. now rewrite Hl. }
  assert (Hbu : builds u = builds w) by exact Hb.
  assert (Hku : kits u = kits w) by exact Hk.
  assert (Hiu : integrations u = integrations w) by exact Hi.
  assert (Hmu : ident (Kit_ObjectMeta (kit_obj u)) = id).
  { unfold id. simpl. now rewrite Hmeta. }
  clearbody u. clear Hb Hk Hi Hl Hmeta.
  destruct (String.eqb _ BuildPhaseRunning).
  { injection Hrun as <- <-. exists None, []. auto 8. }
  destruct (String.eqb _ BuildPhaseSucceeded).
  - destruct (negb _); simpl in Hrun.
    { injection Hrun as <- <-. exists None, []. auto 8. }
    set (target := ready_target (kit_obj u) build) in *.
    destruct (client_StatusUpdate_Kit_trace target u) as (o' & Hcall & Hans & Hb1 & _).
    destruct (client_StatusUpdate_Kit target u) as [r1 u1]; simpl in *. subst r1.
    destruct o' as [e|]; simpl in Hrun.
    + injection Hrun as <- <-.
      exists None, [(CallStatusUpdateKit target, Some e)].
      split; [exact (calls_trans _ _ _ _ _ Hu Hcall)|].
      split; [congruence|]. right. exists target, (Some e), [].
      repeat split; auto.
    + destruct (informIntegrations_trace target u1) as (n & Hn & Hall).
      destruct (informIntegrations_frame target u1) as [Hb2 _].
      rewrite Hrun in *. simpl in *.
      exists None, ((CallStatusUpdateKit target, None) :: n).
      split; [exact (calls_trans _ _ _ _ _ Hu (calls_trans _ _ _ _ _ Hcall Hn))|].
      split; [congruence|]. right. exists target, None, n.
      repeat split; auto; done.
  - destruct (_ || _).
    2: { injection Hrun as <- <-. exists None, []. auto 8. }
    destruct (negb _); simpl in Hrun.
    { injection Hrun as <- <-. exists None, []. auto 8. }
    set (target := failed_target (kit_obj u) build) in *.
    destruct (client_StatusUpdate_Kit_trace target u) as (o' & Hcall & Hans & Hb1 & _).
    rewrite Hrun in *. simpl in *.
    exists None, [(CallStatusUpdateKit target, o')].
    split; [exact (calls_trans _ _ _ _ _ Hu Hcall)|].
    split; [congruence|]. right. exists target, o', [].
    repeat split; auto.
Qed.

(** *** A phase changed in the store *)

Section Finalizing.

Variable trait_Apply :
  World -> option Integration -> IntegrationKit ->
  Result Environment * IntegrationKit.


End Finalizing.

(** *** Submitting a Build *)

Section Submitting.

Variable trait_Apply :
  World -> option Integration -> IntegrationKit ->
  Result Environment * IntegrationKit.

Lemma fetched_after_served (w : World) (a : Ambient) (rest : list Ambient) :
  ambient w = a :: rest ->
  fault a = None ->
  fst (step_ambient w) = None /\
  ambient (fetched w) = rest /\
  scheme (fetched w) = scheme w /\
  builds (fetched w) = builds w.
Proof.
  intros Hamb Hfault. unfold fetched, step_ambient. rewrite Hamb. simpl.
  now rewrite Hfault.
Qed.

Lemma triggerBuild_apply_error (u : World) (e : error) (k1 : IntegrationKit) :
  trait_Apply u None (kit_obj u) = (Err e, k1) ->
  triggerBuild trait_Apply u
  = (Err e, with_kit_obj k1 (record (CallApply (kit_obj u)) (Some e) u)).
Proof.
  intros Happly.
  unfold triggerBuild, bind, deref, trait_Apply_call, assign_kit, lift. simpl.
  now rewrite Happly.
Qed.

Ltac compose_build Happly Hcatalog Hplatform Hscheme :=
  unfold triggerBuild, bind, deref, trait_Apply_call, assign_kit, lift; simpl;
  rewrite Happly; simpl; rewrite Hcatalog, Hplatform; simpl;
  unfold SetControllerReference; simpl; rewrite Hscheme; simpl;
  unfold attempt, client_Delete_Build, client_Create_Build, roundtrip,
    step_ambient, store_Delete_Build, store_Create_Build; cbn.

Lemma triggerBuild_delete_fault (u : World) (env : Environment)
  (k1 : IntegrationKit) (catalog : CamelCatalog) (platform : IntegrationPlatform)
  (a : Ambient) (rest : list Ambient) (msg : string) :
  trait_Apply u None (kit_obj u) = (Ok env, k1) ->
  Env_CamelCatalog env = Some catalog ->
  Env_Platform env = Some platform ->
  scheme u = true ->
  ambient u = a :: rest ->
  fault a = Some msg ->
  fst (triggerBuild trait_Apply u)
  = Err (ErrWrap (ErrTransient msg) "cannot delete build") /\
  builds (snd (triggerBuild trait_Apply u)) = builds u /\
  calls u (snd (triggerBuild trait_Apply u))
        [(CallApply (kit_obj u), None);
         (CallDeleteBuild (ident (Kit_ObjectMeta k1)), Some (ErrTransient msg))].
Proof.
  intros Happly Hcatalog Hplatform Hscheme Hamb Hfault.
  compose_build Happly Hcatalog Hplatform Hscheme.
  rewrite Hamb. cbn. rewrite Hfault. cbn.
  split; [done|]. split; [done|]. unfold calls. cbn. now rewrite <- app_assoc.
Qed.

Lemma triggerBuild_create_fault (u : World) (env : Environment)
  (k1 : IntegrationKit) (catalog : CamelCatalog) (platform : IntegrationPlatform)
  (a1 a2 : Ambient) (rest : list Ambient) (msg : string) :
  trait_Apply u None (kit_obj u) = (Ok env, k1) ->
  Env_CamelCatalog env = Some catalog ->
  Env_Platform env = Some platform ->
  scheme u = true ->
  ambient u = a1 :: a2 :: rest ->
  fault a1 = None ->
  fault a2 = Some msg ->
  fst (triggerBuild trait_Apply u)
  = Err (ErrWrap (ErrTransient msg) "cannot create build") /\
  builds (snd (triggerBuild trait_Apply u))
  = delete (ident (Kit_ObjectMeta k1)) (builds u) /\
  exists o,
    calls u (snd (triggerBuild trait_Apply u))
          [(CallApply (kit_obj u), None);
           (CallDeleteBuild (ident (Kit_ObjectMeta k1)), o);
           (CallCreateBuild (owned_by k1 (new_Build k1 catalog env platform)),
            Some (ErrTransient msg))].
Proof.
  intros Happly Hcatalog Hplatform Hscheme Hamb Hf1 Hf2.
  compose_build Happly Hcatalog Hplatform Hscheme.
  rewrite Hamb. cbn. rewrite Hf1. cbn.
  destruct (builds u !! ident _) eqn:Hlook; cbn; rewrite Hf2; cbn.
  - split; [done|]. split; [done|]. eexists. unfold calls. cbn.
    rewrite <- !app_assoc. reflexivity.
  - split; [done|]. split; [now rewrite delete_id|]. eexists. unfold calls. cbn.
    rewrite <- !app_assoc. reflexivity.
Qed.

Lemma triggerBuild_result (u : World) (env : Environment) (k1 : IntegrationKit)
  (catalog : CamelCatalog) (platform : IntegrationPlatform) :
  trait_Apply u None (kit_obj u) = (Ok env, k1) ->
  Env_CamelCatalog env = Some catalog ->
  Env_Platform env = Some platform ->
  scheme u = true ->
  faultless u ->
  fst (triggerBuild trait_Apply u)
  = Ok (owned_by k1 (new_Build k1 catalog env platform)) /\
  builds (snd (triggerBuild trait_Apply u))
  = <[ident (Kit_ObjectMeta k1) := owned_by k1 (new_Build k1 catalog env platform)]>
      (builds u).
Proof.
  intros Happly Hcatalog Hplatform Hscheme Hquiet.
  compose_build Happly Hcatalog Hplatform Hscheme.
  unfold faultless in Hquiet.
  destruct (ambient u) as [|[f1 e1] [|[f2 e2] rest]] eqn:Hamb; cbn.
  all: repeat match goal with
              | H : Forall _ (_ :: _) |- _ =>
                  apply Forall_cons in H as [? H]; simpl in *; subst
              end.
  all: destruct (builds u !! ident _) eqn:Hlook; cbn; rewrite ?Hamb; cbn.
  all: rewrite ?lookup_delete_eq, ?Hlook; cbn.
  all: split; [reflexivity|]; rewrite ?insert_delete_eq; reflexivity.
Qed.

(** X8. When the Get of the Build fails for a reason other than not-found,
    the submitted handling answers that error as it is; the pipeline is not
    composed, no Build is deleted or created, and the stored builds and kits
    are as before. *)
Theorem fetch_error_stops_submission (w : World) (msg : string) :
  let id := ident (Kit_ObjectMeta (kit_obj w)) in
  let run := handleBuildSubmitted trait_Apply w in
  fst (step_ambient w) = Some msg ->
  fst run = Err (ErrTransient msg) /\
  calls w (snd run) [(CallGetBuild id, Some (ErrTransient msg))] /\
  builds (snd run) = builds w /\
  kits (snd run) = kits w.
Proof.
  intros id run Hfault. subst id run.
  destruct (handleBuildSubmitted_cases trait_Apply w)
    as [msg' Hfault' Hr Hcalls Hb Hk
       | b Hserved Hlook Hnt Hnr Hr Hcalls Hb Hk
       | b o Hserved Hlook Hrunning Hr Hcalls Hb
       | rb Hserved Hwanted Hrun Htrig Hr Hk]; try congruence.
  rewrite Hfault in Hfault'. injection Hfault' as <-. auto.
Qed.

(** X9. The Build is absent or terminal and composing the pipeline for the
    kit fails.  Then the handler answers the error of the composition as it
    is; the Get and the composition are the only calls made, and the stored
    builds and kits are as before. *)
Theorem composition_error_is_returned (w : World) (e : error) :
  let id := ident (Kit_ObjectMeta (kit_obj w)) in
  let run := handleBuildSubmitted trait_Apply w in
  fst (step_ambient w) = None ->
  absent_or_terminal w id ->
  fst (trait_Apply (fetched w) None (kit_obj (fetched w))) = Err e ->
  fst run = Err e /\
  (exists o,
     calls w (snd run)
           [(CallGetBuild id, o); (CallApply (kit_obj (fetched w)), Some e)]) /\
  builds (snd run) = builds w /\
  kits (snd run) = kits w.
Proof.
  intros id run Hserved Hwanted Happly. subst run.
  rewrite (handleBuildSubmitted_rebuild _ _ Hserved Hwanted).
  destruct (trait_Apply (fetched w) None (kit_obj (fetched w))) as [renv k1] eqn:Hpair.
  simpl in Happly. subst renv.
  unfold bind. rewrite (triggerBuild_apply_error _ _ _ Hpair). simpl.
  destruct (step_ambient_frame w) as (Hb & Hk & _ & _ & Hl).
  split; [done|]. split; [|now split].
  eexists. unfold calls. simpl. rewrite Hl, <- app_assoc. reflexivity.
Qed.

(** X10. The Build is absent or terminal, composition gives an environment
    with a catalog and a platform, the scheme knows the kit and no
    round-trip fails.  Then the handler answers success and the store holds,
    under the identity of the composed kit, a Build that is owned by the
    kit, has an empty status, and whose spec records the kit's metadata and
    dependencies, the version of the catalog, the runtime version, the
    platform spec and build directory of the environment, and the
    identifiers of the environment's steps in their order; every other
    Build is as it was. *)
Theorem created_build_snapshots_the_kit (w : World) (env : Environment)
  (k1 : IntegrationKit) (catalog : CamelCatalog) (platform : IntegrationPlatform) :
  let id := ident (Kit_ObjectMeta (kit_obj w)) in
  let run := handleBuildSubmitted trait_Apply w in
  faultless w ->
  absent_or_terminal w id ->
  trait_Apply (fetched w) None (kit_obj (fetched w)) = (Ok env, k1) ->
  Env_CamelCatalog env = Some catalog ->
  Env_Platform env = Some platform ->
  scheme w = true ->
  exists b,
    fst run = Ok tt /\
    builds (snd run) = <[ident (Kit_ObjectMeta k1) := b]> (builds w) /\
    ident (Build_ObjectMeta b) = ident (Kit_ObjectMeta k1) /\
    OwnerReferences (Build_ObjectMeta b)
    = [("IntegrationKit", Name (Kit_ObjectMeta k1))] /\
    Build_Status b = BuildStatus_zero /\
    Build_Spec b
    = {| BuildSpec_Meta := Kit_ObjectMeta k1;
         BuildSpec_CamelVersion := Version catalog;
         BuildSpec_RuntimeVersion := Env_RuntimeVersion env;
         BuildSpec_Platform := Platform_Spec platform;
         BuildSpec_Dependencies := KitSpec_Dependencies (Kit_Spec k1);
         BuildSpec_Steps := Step_ID <$> Env_Steps env;
         BuildSpec_BuildDir := Env_BuildDir env |}.
Proof.
  intros id run Hquiet Hwanted Happly Hcatalog Hplatform Hscheme. subst run.
  pose proof (faultless_served _ Hquiet) as Hserved.
  rewrite (handleBuildSubmitted_rebuild _ _ Hserved Hwanted).
  assert (Hscheme' : scheme (fetched w) = true).
  { unfold fetched. simpl.
    destruct (step_ambient_frame w) as (_ & _ & _ & -> & _). exact Hscheme. }
  destruct (triggerBuild_result (fetched w) env k1 catalog platform Happly
              Hcatalog Hplatform Hscheme' (faultless_fetched _ Hquiet))
    as [Hres Hstore].
  unfold bind.
  destruct (triggerBuild trait_Apply (fetched w)) as [r u']. simpl in *. subst r.
  simpl. exists (owned_by k1 (new_Build k1 catalog env platform)).
  split; [reflexivity|]. split.
  { rewrite Hstore. unfold fetched. simpl.
    now destruct (step_ambient_frame w) as (-> & _). }
  repeat split.
Qed.

(** X11. The Get is served, the Build is absent or terminal and composition
    succeeds, but the Delete fails for a reason other than not-found.  Then
    the handler answers that error wrapped as "cannot delete build", makes
    no Create, and the stored builds and kits are as before. *)
Theorem delete_failure_stops_the_rebuild (w : World) (env : Environment)
  (k1 : IntegrationKit) (catalog : CamelCatalog) (platform : IntegrationPlatform)
  (a0 a1 : Ambient) (rest : list Ambient) (msg : string) :
  let id := ident (Kit_ObjectMeta (kit_obj w)) in
  let run := handleBuildSubmitted trait_Apply w in
  ambient w = a0 :: a1 :: rest ->
  fault a0 = None ->
  fault a1 = Some msg ->
  absent_or_terminal w id ->
  trait_Apply (fetched w) None (kit_obj (fetched w)) = (Ok env, k1) ->
  Env_CamelCatalog env = Some catalog ->
  Env_Platform env = Some platform ->
  scheme w = true ->
  fst run = Err (ErrWrap (ErrTransient msg) "cannot delete build") /\
  (exists o,
     calls w (snd run)
           [(CallGetBuild id, o);
            (CallApply (kit_obj (fetched w)), None);
            (CallDeleteBuild (ident (Kit_ObjectMeta k1)),
             Some (ErrTransient msg))]) /\
  builds (snd run) = builds w /\
  kits (snd run) = kits w.
Proof.
  intros id run Hamb Hf0 Hf1 Hwanted Happly Hcatalog Hplatform Hscheme. subst run.
  destruct (fetched_after_served w a0 (a1 :: rest) Hamb Hf0)
    as (Hserved & Hamb' & Hscheme' & Hbuilds).
  rewrite (handleBuildSubmitted_rebuild _ _ Hserved Hwanted).
  rewrite <- Hscheme' in Hscheme.
  destruct (triggerBuild_delete_fault (fetched w) env k1 catalog platform a1 rest msg
              Happly Hcatalog Hplatform Hscheme Hamb' Hf1)
    as (Hres & Hstore & Hcalls).
  destruct (triggerBuild_frame trait_Apply (fetched w)) as [Hkits _].
  destruct (calls_fetched w) as (o & Hget & _).
  unfold bind.
  destruct (triggerBuild trait_Apply (fetched w)) as [r u']. simpl in *. subst r.
  simpl. split; [reflexivity|].
  split; [exists o; exact (calls_trans _ _ _ _ _ Hget Hcalls)|].
  split; [congruence|].
  rewrite Hkits. apply step_ambient_frame.
Qed.

(** X12. The Get and the Delete go through but the Create fails.  Then the
    handler answers that error wrapped as "cannot create build" and leaves
    the store without any Build of the composed kit's identity; a later
    pass over a kit of that identity therefore finds the Build absent,
    which is the condition under which it builds anew. *)
Theorem create_failure_leaves_no_build (w : World) (env : Environment)
  (k1 : IntegrationKit) (catalog : CamelCatalog) (platform : IntegrationPlatform)
  (a0 a1 a2 : Ambient) (rest : list Ambient) (msg : string) :
  let id := ident (Kit_ObjectMeta (kit_obj w)) in
  let run := handleBuildSubmitted trait_Apply w in
  ambient w = a0 :: a1 :: a2 :: rest ->
  fault a0 = None ->
  fault a1 = None ->
  fault a2 = Some msg ->
  absent_or_terminal w id ->
  trait_Apply (fetched w) None (kit_obj (fetched w)) = (Ok env, k1) ->
  Env_CamelCatalog env = Some catalog ->
  Env_Platform env = Some platform ->
  scheme w = true ->
  fst run = Err (ErrWrap (ErrTransient msg) "cannot create build") /\
  builds (snd run) = delete (ident (Kit_ObjectMeta k1)) (builds w) /\
  kits (snd run) = kits w /\
  forall kit script,
    ident (Kit_ObjectMeta kit) = ident (Kit_ObjectMeta k1) ->
    absent_or_terminal (later_pass kit script (snd run))
                       (ident (Kit_ObjectMeta kit)).
Proof.
  intros id run Hamb Hf0 Hf1 Hf2 Hwanted Happly Hcatalog Hplatform Hscheme.
  subst run.
  destruct (fetched_after_served w a0 (a1 :: a2 :: rest) Hamb Hf0)
    as (Hserved & Hamb' & Hscheme' & Hbuilds).
  rewrite (handleBuildSubmitted_rebuild _ _ Hserved Hwanted).
  rewrite <- Hscheme' in Hscheme.
  destruct (triggerBuild_create_fault (fetched w) env k1 catalog platform a1 a2 rest
              msg Happly Hcatalog Hplatform Hscheme Hamb' Hf1 Hf2)
    as (Hres & Hstore & _).
  destruct (triggerBuild_frame trait_Apply (fetched w)) as [Hkits _].
  unfold bind.
  destruct (triggerBuild trait_Apply (fetched w)) as [r u']. simpl in *. subst r.
  simpl. split; [reflexivity|].
  split; [congruence|].
  split; [rewrite Hkits; apply step_ambient_frame|].
  intros kit script Hkit. unfold absent_or_terminal, later_pass. simpl.
  now rewrite Hstore, Hkit, lookup_delete_eq.
Qed.

(** X13. Whatever happens in a pass of the submitted handling, a Build found
    in the store afterwards either was there before, unchanged, or sits
    under the identity of the composed kit with an unset status phase; and
    no Build of another identity is added, removed or changed. *)
Theorem submitted_pass_keeps_other_builds (w : World) :
  let run := handleBuildSubmitted trait_Apply w in
  let composed := trait_Apply (fetched w) None (kit_obj (fetched w)) in
  (forall id b,
     builds (snd run) !! id = Some b ->
     builds w !! id = Some b \/
     (id = ident (Kit_ObjectMeta (snd composed)) /\
      BuildStatus_Phase (Build_Status b) = BuildPhaseNone)) /\
  (forall id,
     id <> ident (Kit_ObjectMeta (snd composed)) ->
     builds (snd run) !! id = builds w !! id).
Proof.
  intros run composed. subst run composed.
  assert (Hfb : builds (fetched w) = builds w).
  { unfold fetched. simpl. apply step_ambient_frame. }
  destruct (handleBuildSubmitted_cases trait_Apply w)
    as [msg Hfault Hr Hcalls Hb Hk
       | b Hserved Hlook Hnt Hnr Hr Hcalls Hb Hk
       | b o Hserved Hlook Hrunning Hr Hcalls Hb
       | rb Hserved Hwanted Hrun Htrig Hr Hk].
  1-3: rewrite Hb; split; [intros id b' H; now left | done].
  destruct Htrig as [e Hrb Hcalls Hb
                    | msg Hrb Hcalls Hb
                    | b o e Hrb Ho Hid Hphase Hcalls Hb
                    | b o Hrb Ho Hid Hphase Hcalls Hb];
    rewrite Hb, Hfb.
  1-2: split; [intros id b' H; now left | done].
  - rewrite Hid. split.
    + intros id b' H. left.
      destruct (decide (ident (Kit_ObjectMeta
                  (snd (trait_Apply (fetched w) None (kit_obj (fetched w))))) = id))
        as [<-|Hne].
      * now rewrite lookup_delete_eq in H.
      * now rewrite lookup_delete_ne in H.
    + intros id Hne. now rewrite lookup_delete_ne.
  - rewrite Hid. split.
    + intros id b' H.
      destruct (decide (ident (Kit_ObjectMeta
                  (snd (trait_Apply (fetched w) None (kit_obj (fetched w))))) = id))
        as [<-|Hne].
      * rewrite lookup_insert_eq in H. injection H as <-. right. now split.
      * rewrite lookup_insert_ne, lookup_delete_ne in H by done. now left.
    + intros id Hne. now rewrite lookup_insert_ne, lookup_delete_ne.
Qed.

(** X14. No round-trip fails, the Build of the kit is found Running and the
    kit is in the store.  Then the handler answers success, the stored kit
    gets the status of the kit object with phase BuildRunning, the builds
    are untouched, and the build action run on the stored kit in a later
    pass is the monitoring handler. *)
Theorem running_build_hands_over_to_monitoring (w : World) (build : Build)
  (old : IntegrationKit) :
  let id := ident (Kit_ObjectMeta (kit_obj w)) in
  let run := handleBuildSubmitted trait_Apply w in
  faultless w ->
  builds w !! id = Some build ->
  BuildStatus_Phase (Build_Status build) = BuildPhaseRunning ->
  kits w !! id = Some old ->
  exists stored,
    fst run = Ok tt /\
    kits (snd run) !! id = Some stored /\
    Kit_Status stored
    = set_KitStatus_Phase IntegrationKitPhaseBuildRunning
        (Kit_Status (kit_obj (snd (step_ambient w)))) /\
    Kit_Spec stored = Kit_Spec old /\
    builds (snd run) = builds w /\
    forall script,
      buildAction_Handle trait_Apply (later_pass stored script (snd run))
      = handleBuildRunning (later_pass stored script (snd run)).
Proof.
  intros id run Hquiet Hbuild Hphase Hold. subst run.
  pose proof (faultless_served _ Hquiet) as Hserved.
  destruct (step_ambient_frame w) as (Hb & Hk & _ & _ & _).
  set (observed := record (CallGetBuild id) None (snd (step_ambient w))).
  set (target := set_Kit_Phase IntegrationKitPhaseBuildRunning
                               (kit_obj (snd (step_ambient w)))).
  assert (Hrun : handleBuildSubmitted trait_Apply w
                 = client_StatusUpdate_Kit target observed).
  { unfold handleBuildSubmitted, client_Get_Build.
    unfold bind at 1, deref at 1, bind at 1, attempt at 1.
    rewrite (roundtrip_served _ _ _ Hserved). unfold store_Get_Build.
    fold id. rewrite Hb, Hbuild. simpl. unfold bind at 1. simpl.
    unfold rebuild_wanted. rewrite Hphase. simpl.
    unfold bind, deref. simpl. rewrite Hphase. reflexivity. }
  rewrite Hrun. clear Hrun.
  assert (Hquiet1 : faultless observed).
  { apply faultless_step in Hquiet. exact Hquiet. }
  assert (Hid : ident (Kit_ObjectMeta target) = id).
  { subst target id. simpl. now rewrite step_ambient_meta. }
  unfold client_StatusUpdate_Kit.
  rewrite (roundtrip_served _ _ _ (faultless_served _ Hquiet1)).
  unfold store_StatusUpdate_Kit.
  destruct (step_ambient_frame observed) as (Hb1 & Hk1 & _ & _ & _).
  rewrite Hid, Hk1. simpl. rewrite Hk, Hold. simpl.
  exists (set_Kit_Status (Kit_Status target) old).
  split; [reflexivity|]. split; [apply lookup_insert_eq|].
  split; [reflexivity|]. split; [reflexivity|].
  split; [now rewrite Hb1|].
  intros script. unfold buildAction_Handle, bind, deref. reflexivity.
Qed.

End Submitting.

(** *** Initializing a kit *)

Section Initializing.

Variable trait_Apply :
  World -> option Integration -> IntegrationKit ->
  Result Environment * IntegrationKit.
Variable GetCurrentPlatform : World -> string -> Result IntegrationPlatform.
Variable ComputeForIntegrationKit : IntegrationKit -> Result string.

Ltac run_initialize Hplatform :=
  unfold initializeAction_Handle, bind, deref; rewrite Hplatform;
  unfold trait_Apply_call, lift;
  destruct (trait_Apply _ None _) as [[?env|?e] ?composed]; simpl;
  unfold client_Update_Kit, client_StatusUpdate_Kit, roundtrip, step_ambient,
    store_Update_Kit, store_StatusUpdate_Kit, calls;
  repeat (simpl; case_match; simplify_eq; simpl).


(** X16. With the platform ready, after an initialize pass that completes
    the kit stored under the identity of the composed kit is no longer
    accepted by the initialize action; the build action accepts it exactly
    when its spec names no image; and when it does name one, the build
    action run on it in a later pass does nothing. *)
Theorem initialized_kit_is_handed_over (w : World) (p : IntegrationPlatform) :
  let run :=
    initializeAction_Handle trait_Apply GetCurrentPlatform
                            ComputeForIntegrationKit w in
  let composed := snd (trait_Apply w None (kit_obj w)) in
  GetCurrentPlatform w (Namespace (Kit_ObjectMeta (kit_obj w))) = Ok p ->
  fst run = Ok tt ->
  exists stored,
    kits (snd run) !! ident (Kit_ObjectMeta composed) = Some stored /\
    Kit_Spec stored = Kit_Spec composed /\
    initializeAction_CanHandle stored = false /\
    buildAction_CanHandle stored = String.eqb (KitSpec_Image (Kit_Spec stored)) "" /\
    (KitSpec_Image (Kit_Spec stored) <> "" ->
     forall script,
       buildAction_Handle trait_Apply (later_pass stored script (snd run))
       = (Ok tt, later_pass stored script (snd run))).
Proof.
  intros run composed Hplatform. subst run composed.
  run_initialize Hplatform.
  all: try (intros [=]; fail).
  all: intros _; rewrite first_phase_meta in *.
  all: rewrite lookup_insert_eq.
  all: match goal with
       | H : <[_ := _]> _ !! _ = Some _ |- _ =>
           rewrite lookup_insert_eq in H; simplify_eq
       end.
  all: eexists; split; [reflexivity|]; simpl.
  all: split; [reflexivity|].
  all: unfold initializeAction_CanHandle, buildAction_CanHandle, buildAction_Handle,
         bind, deref, first_phase; simpl.
  all: destruct (String.eqb_spec (KitSpec_Image (Kit_Spec composed)) "");
    simpl; auto; now repeat split.
Qed.

End Initializing.

(** *** Dispatching *)

Section Dispatching.

Variable trait_Apply :
  World -> option Integration -> IntegrationKit ->
  Result Environment * IntegrationKit.

Lemma handleBuildSubmitted_first_call (w : World) :
  exists o l,
    calls w (snd (handleBuildSubmitted trait_Apply w))
          ((CallGetBuild (ident (Kit_ObjectMeta (kit_obj w))), o) :: l).
Proof.
  destruct (handleBuildSubmitted_cases trait_Apply w)
    as [msg _ _ Hcalls _ _
       | b _ _ _ _ _ Hcalls _ _
       | b o _ _ _ _ Hcalls _
       | rb _ _ _ Hcases _ _]; eauto.
  destruct (calls_fetched w) as (o & Hget & _).
  destruct Hcases as [e _ Hcalls _ | msg _ Hcalls _ | b o' e _ _ _ _ Hcalls _
                     | b o' _ _ _ _ Hcalls _];
    pose proof (calls_trans _ _ _ _ _ Hget Hcalls) as Hall; simpl in Hall; eauto.
Qed.

Lemma handleBuildRunning_first_call (w : World) :
  exists o l,
    calls w (snd (handleBuildRunning w))
          ((CallGetBuild (ident (Kit_ObjectMeta (kit_obj w))), o) :: l).
Proof.
  destruct (handleBuildRunning w) as [r w'] eqn:Hrun. simpl.
  destruct (step_ambient_frame w) as (_ & _ & _ & _ & Hl).
  unfold handleBuildRunning, bind, deref, client_Get_Build, roundtrip in Hrun.
  set (id := ident (Kit_ObjectMeta (kit_obj w))) in *.
  destruct (step_ambient w) as [[msg|] w1]; simpl in *.
  { injection Hrun as <- <-. eexists _, []. unfold calls. simpl. now rewrite Hl. }
  unfold store_Get_Build in Hrun.
  destruct (builds w1 !! _) as [build|]; simpl in Hrun.
  2: { injection Hrun as <- <-. eexists _, []. unfold calls. simpl. now rewrite Hl. }
  match type of Hrun with
  | context [record ?c None w1] =>
      set (u := record c None w1) in *;
      assert (Hu : calls w u [(c, None)])
        by (unfold calls, u; simpl; now rewrite Hl)
  end.
  clearbody u.
  assert (Hupdate : forall k, exists l,
             calls w (snd (client_StatusUpdate_Kit k u)) ((CallGetBuild id, None) :: l)).
  { intros k. destruct (client_StatusUpdate_Kit_trace k u) as (o & Hcall & _).
    eexists. exact (calls_trans _ _ _ _ _ Hu Hcall). }
  destruct (String.eqb _ BuildPhaseRunning).
  { injection Hrun as <- <-. eauto. }
  destruct (String.eqb _ BuildPhaseSucceeded).
  - destruct (negb _); simpl in Hrun.
    { injection Hrun as <- <-. eauto. }
    match type of Hrun with
    | context [client_StatusUpdate_Kit ?k u] =>
        destruct (client_StatusUpdate_Kit_trace k u) as (o & Hcall & Hans & _);
        destruct (client_StatusUpdate_Kit k u) as [r1 u1]; simpl in *; subst r1;
        pose proof (calls_trans _ _ _ _ _ Hu Hcall) as H1;
        destruct (informIntegrations_trace k u1) as (n & Hn & _)
    end.
    destruct o as [e|]; simpl in Hrun.
    + injection Hrun as <- <-. eauto.
    + rewrite Hrun in Hn. simpl in Hn.
      pose proof (calls_trans _ _ _ _ _ H1 Hn) as H2. simpl in H2. eauto.
  - destruct (_ || _).
    2: { injection Hrun as <- <-. eauto. }
    destruct (negb _); simpl in Hrun.
    { injection Hrun as <- <-. eauto. }
    match type of Hrun with
    | context [client_StatusUpdate_Kit ?k u] =>
        destruct (Hupdate k) as (l & Hcalls)
    end.
    rewrite Hrun in Hcalls. eauto.
Qed.

(** X18. The build action acts only on the kits it accepts: on a kit whose
    phase is neither BuildSubmitted nor BuildRunning it answers success
    without any call and leaves the world as it is; on a kit it accepts,
    whatever happens afterwards, its first call is the Get of the Build
    that has the kit's namespace and name.  And no kit is accepted by both
    the initialize action and the build action. *)
Theorem build_action_acts_only_on_accepted_kits (w : World) :
  let kit := kit_obj w in
  let run := buildAction_Handle trait_Apply w in
  (buildAction_CanHandle kit = false -> run = (Ok tt, w)) /\
  (buildAction_CanHandle kit = true ->
   exists o l,
     calls w (snd run) ((CallGetBuild (ident (Kit_ObjectMeta kit)), o) :: l)) /\
  (initializeAction_CanHandle kit = true -> buildAction_CanHandle kit = false).
Proof.
  intros kit run. subst kit run.
  unfold buildAction_Handle, buildAction_CanHandle, initializeAction_CanHandle,
    bind, deref.
  simpl.
  destruct (String.eqb_spec (KitStatus_Phase (Kit_Status (kit_obj w)))
              IntegrationKitPhaseBuildSubmitted) as [Hs|Hs]; simpl.
  { split; [discriminate|]. split; [|rewrite Hs; discriminate].
    intros _. apply handleBuildSubmitted_first_call. }
  destruct (String.eqb_spec (KitStatus_Phase (Kit_Status (kit_obj w)))
              IntegrationKitPhaseBuildRunning) as [Hr|Hr]; simpl.
  { split; [discriminate|]. split; [|rewrite Hr; discriminate].
    intros _. apply handleBuildRunning_first_call. }
  split; [reflexivity|]. split; [discriminate | reflexivity].
Qed.

End Dispatching.

(** ** The theorems at sample inputs *)

Lemma initialize_waits_for_platform_witness :
  platform_missing world_new "ns" = Err ErrNotFound /\
  initializeAction_Handle (sample_Apply None) platform_missing sample_digest world_new
  = (Ok tt, world_new).
Proof.
  split; [reflexivity|].
  apply (initialize_waits_for_platform (sample_Apply None) platform_missing
           sample_digest world_new ErrNotFound).
  reflexivity.
Defined.

Lemma initialize_first_phase_witness :
  platform_ready world_new "ns" = Ok sample_platform /\
  exists stored,
    kits (snd (initializeAction_Handle (sample_Apply None) platform_ready
                 sample_digest world_new)) !! ("ns", "kit-a") = Some stored /\
    KitStatus_Phase (Kit_Status stored) = IntegrationKitPhaseBuildSubmitted /\
    KitStatus_Digest (Kit_Status stored) = "v1:".
Proof.
  split; [reflexivity|].
  destruct (initialize_first_phase (sample_Apply None) platform_ready sample_digest
              world_new sample_platform eq_refl) as (_ & Hdone & _).
  destruct (Hdone eq_refl) as (stored & d & Hd & Hstored & Hspec & Hstatus & Hbuilt & _).
  exists stored. split; [exact Hstored|].
  split; [apply Hbuilt; rewrite Hspec; reflexivity|].
  rewrite Hstatus. simpl. injection Hd as <-. reflexivity.
Defined.

Lemma build_succeeded_makes_kit_ready_witness :
  builds world_running !! ("ns", "kit-a") = Some (sample_build BuildPhaseSucceeded) /\
  kits (snd (handleBuildRunning world_running)) !! ("ns", "kit-a")
  = Some (set_Kit_Status
            {| KitStatus_Phase := IntegrationKitPhaseReady;
               KitStatus_BaseImage := "base:1"; KitStatus_Image := "img:1";
               KitStatus_PublicImage := "pub:1"; KitStatus_Digest := "";
               KitStatus_Artifacts := [ {| ID := "a"; Location := ""; Target := "t" |} ];
               KitStatus_Failure := None |}
            (sample_kit "" IntegrationKitPhaseBuildRunning)).
Proof.
  split; [reflexivity|].
  destruct (build_succeeded_makes_kit_ready world_running
              (sample_build BuildPhaseSucceeded) eq_refl eq_refl eq_refl eq_refl)
    as (_ & _ & _ & Hstored).
  exact (Hstored (sample_kit "" IntegrationKitPhaseBuildRunning) eq_refl eq_refl).
Defined.

Lemma phase_conflict_aborts_witness :
  KitStatus_Phase (Kit_Status (kit_obj (snd (step_ambient world_edited))))
  = IntegrationKitPhaseReady /\
  calls world_edited (snd (buildAction_Handle (sample_Apply None) world_edited))
        [(CallGetBuild ("ns", "kit-a"), None)] /\
  kits (snd (buildAction_Handle (sample_Apply None) world_edited)) = kits world_edited.
Proof.
  split; [reflexivity|].
  destruct (phase_conflict_aborts (sample_Apply None) world_edited
              (sample_build BuildPhaseSucceeded) eq_refl eq_refl eq_refl
              (or_introl eq_refl))
    as (wording & _ & _ & Hcalls & Hkits & _).
  - simpl. discriminate.
  - split; [exact Hcalls | exact Hkits].
Defined.

Lemma waiting_well_keyed : well_keyed waiting.
Proof.
  intros id i H. unfold waiting in H.
  apply lookup_insert_Some in H as [[<- <-] | [_ H]]; [reflexivity|].
  apply lookup_insert_Some in H as [[<- <-] | [_ H]]; [reflexivity|].
  now rewrite lookup_empty in H.
Defined.

Lemma informIntegrations_exact_witness :
  well_keyed (integrations world_ready) /\
  integrations (snd (informIntegrations (sample_kit "" IntegrationKitPhaseReady)
                                        world_ready)) !! ("ns", "it-1")
  = Some (sample_integration "it-1" "kit-a" IntegrationPhaseResolvingKit) /\
  integrations (snd (informIntegrations (sample_kit "" IntegrationKitPhaseReady)
                                        world_ready)) !! ("ns", "it-2")
  = Some (sample_integration "it-2" "kit-a-2" "WaitingForKit").
Proof.
  split; [exact waiting_well_keyed|].
  destruct (informIntegrations_exact (sample_kit "" IntegrationKitPhaseReady)
              world_ready waiting_well_keyed)
    as (Honly & _ & Hall & _).
  split.
  - apply (Hall eq_refl ("ns", "it-1")
             (sample_integration "it-1" "kit-a" "WaitingForKit") eq_refl).
    split; reflexivity.
  - destruct (Honly ("ns", "it-2")
                (sample_integration "it-2" "kit-a-2" "WaitingForKit") eq_refl)
      as [Hsame | [[_ Hrefers] _]]; [exact Hsame|].
    discriminate Hrefers.
Defined.

Lemma missing_catalog_fails_hard_witness :
  absent_or_terminal world_submitted ("ns", "kit-a") /\
  fst (handleBuildSubmitted (sample_Apply None) world_submitted)
  = Err (ErrNew "undefined camel catalog") /\
  builds (snd (handleBuildSubmitted (sample_Apply None) world_submitted)) = ∅.
Proof.
  assert (Habsent : absent_or_terminal world_submitted ("ns", "kit-a")) by exact I.
  split; [exact Habsent|].
  destruct (missing_catalog_fails_hard (sample_Apply None) world_submitted
              (sample_env None) eq_refl Habsent eq_refl eq_refl)
    as (Herr & _ & Hbuilds & _).
  split; [exact Herr | exact Hbuilds].
Defined.

Lemma rebuild_iff_absent_or_terminal_witness :
  fst (step_ambient world_submitted) = None /\
  exists l,
    calls world_submitted
          (snd (handleBuildSubmitted (sample_Apply (Some sample_catalog))
                                     world_submitted)) l /\
    existsb is_apply l = true /\
    fst (handleBuildSubmitted (sample_Apply (Some sample_catalog)) world_submitted)
    = Ok tt /\
    exists b,
      builds (snd (handleBuildSubmitted (sample_Apply (Some sample_catalog))
                                        world_submitted)) !! ("ns", "kit-a")
      = Some b.
Proof.
  split; [reflexivity|].
  assert (Habsent : absent_or_terminal world_submitted ("ns", "kit-a")) by exact I.
  destruct (rebuild_iff_absent_or_terminal (sample_Apply (Some sample_catalog))
              world_submitted eq_refl)
    as (l & Hcalls & [Hcomposed _] & _ & _ & _ & _ & Hdone).
  destruct (Hdone Habsent (sample_env (Some sample_catalog)) sample_catalog
              sample_platform eq_refl eq_refl eq_refl eq_refl (Forall_nil_2 _))
    as (Hok & b & _ & _ & Hstored).
  exists l. split; [exact Hcalls|]. split; [exact (Hcomposed Habsent)|].
  split; [exact Hok|]. exists b. exact Hstored.
Defined.

Lemma advance_only_on_observed_running_witness :
  kits (snd (handleBuildSubmitted (sample_Apply (Some sample_catalog))
                                  world_submitted))
  = kits world_submitted /\
  forall k o,
    (CallStatusUpdateKit k, o)
    ∈ log (snd (handleBuildSubmitted (sample_Apply (Some sample_catalog))
                                     world_observed)) ->
    k = sample_kit "" IntegrationKitPhaseBuildRunning.
Proof.
  split.
  - destruct (advance_only_on_observed_running (sample_Apply (Some sample_catalog))
                world_submitted) as (l & Hcalls & Hrebuilt & _).
    apply Hrebuilt. unfold calls in Hcalls. simpl in Hcalls.
    rewrite <- Hcalls. reflexivity.
  - intros k o Hin.
    destruct (advance_only_on_observed_running (sample_Apply (Some sample_catalog))
                world_observed) as (l & Hcalls & _ & _ & Hadvance & _).
    unfold calls in Hcalls. simpl in Hcalls. rewrite Hcalls in Hin.
    destruct (Hadvance k o Hin) as (_ & -> & _). reflexivity.
Defined.

Lemma submitted_twice_creates_once_witness :
  creations
    (log (snd (handleBuildSubmitted (sample_Apply (Some sample_catalog))
                 (later_pass (sample_kit "" IntegrationKitPhaseBuildSubmitted) []
                    (snd (handleBuildSubmitted (sample_Apply (Some sample_catalog))
                                               world_submitted))))))
  <= 1.
Proof.
  destruct (submitted_twice_creates_once (sample_Apply (Some sample_catalog))
              world_submitted (sample_kit "" IntegrationKitPhaseBuildSubmitted) []
              (fun _ _ _ => eq_refl) eq_refl)
    as (l1 & l2 & Hl1 & Hl2 & Hcount & _).
  unfold calls in Hl1, Hl2. rewrite Hl2. simpl. rewrite Hl1. simpl. exact Hcount.
Defined.

Lemma publish_slot_by_platform_witness :
  exists ks ss,
    compose_steps sample_steps
      (platform_of IntegrationPlatformClusterKubernetes
                   IntegrationPlatformBuildPublishStrategyKaniko)
      (Some (sample_kit "" IntegrationKitPhaseBuildSubmitted))
    = Some ks /\
    compose_steps sample_steps
      (platform_of IntegrationPlatformClusterOpenShift
                   IntegrationPlatformBuildPublishStrategyS2I)
      (Some (sample_kit "" IntegrationKitPhaseBuildSubmitted))
    = Some ss /\
    List.filter tagged_publish ks = [kaniko_Publisher] /\
    List.filter tagged_publish ss = [s2i_Publisher] /\
    length ss = length ks.
Proof.
  apply (publish_slot_by_platform sample_steps
           (sample_kit "" IntegrationKitPhaseBuildSubmitted)).
  - reflexivity.
  - discriminate.
Defined.


(** C6 does not extend to a missing runtime: composition gives an
    environment that has a catalog but no runtime version, and the handler
    answers success and creates the Build, with the empty runtime version
    copied into its spec. *)
Lemma missing_runtime_does_not_stop_the_build :
  absent_or_terminal world_submitted ("ns", "kit-a") /\
  fst (Apply_without_runtime (fetched world_submitted) None
                             (kit_obj (fetched world_submitted)))
  = Ok env_without_runtime /\
  Env_RuntimeVersion env_without_runtime = "" /\
  fst (handleBuildSubmitted Apply_without_runtime world_submitted) = Ok tt /\
  creations (log (snd (handleBuildSubmitted Apply_without_runtime world_submitted)))
  = 1 /\
  builds world_submitted !! ("ns", "kit-a") = None /\
  (BuildSpec_RuntimeVersion <$>
     (Build_Spec <$>
        builds (snd (handleBuildSubmitted Apply_without_runtime world_submitted))
        !! ("ns", "kit-a")))
  = Some "".
Proof.
  split; [exact I|]. split; [reflexivity|]. split; [reflexivity|].
  split; [reflexivity|]. split; [reflexivity|]. split; reflexivity.
Qed.

(** *** The further properties at sample inputs *)

Lemma monitor_returns_fetch_error_witness :
  fst (client_Get_Build ("ns", "kit-a") world_orphan) = Err ErrNotFound /\
  fst (handleBuildRunning world_orphan) = Err ErrNotFound /\
  kits (snd (handleBuildRunning world_orphan)) = kits world_orphan.
Proof.
  split; [reflexivity|].
  destruct (monitor_returns_fetch_error world_orphan ErrNotFound eq_refl)
    as (Herr & _ & _ & Hkits & _).
  split; [exact Herr | exact Hkits].
Defined.

Lemma unfinished_build_is_left_alone_witness :
  builds world_pending !! ("ns", "kit-a") = Some (sample_build "Pending") /\
  fst (handleBuildRunning world_pending) = Ok tt /\
  kits (snd (handleBuildRunning world_pending)) = kits world_pending /\
  integrations (snd (handleBuildRunning world_pending)) = waiting.
Proof.
  split; [reflexivity|].
  destruct (unfinished_build_is_left_alone world_pending (sample_build "Pending")
              eq_refl eq_refl)
    as (Hok & _ & _ & Hkits & Hints); try discriminate.
  split; [exact Hok|]. split; [exact Hkits | exact Hints].
Defined.

Lemma failed_build_marks_kit_error_witness :
  builds world_failed !! ("ns", "kit-a") = Some failed_build /\
  integrations (snd (handleBuildRunning world_failed)) = waiting /\
  exists o,
    calls world_failed (snd (handleBuildRunning world_failed))
          [(CallGetBuild ("ns", "kit-a"), None);
           (CallStatusUpdateKit
              (failed_target (sample_kit "" IntegrationKitPhaseBuildRunning)
                             failed_build), o)].
Proof.
  split; [reflexivity|].
  destruct (failed_build_marks_kit_error world_failed failed_build eq_refl eq_refl
              (or_introl eq_refl) eq_refl)
    as (_ & (o & Hcalls & _) & _ & Hints).
  split; [exact Hints|]. exists o. exact Hcalls.
Defined.

Lemma succeeded_build_readies_kit_and_notifies_witness :
  faultless world_running /\
  fst (handleBuildRunning world_running) = Ok tt /\
  integrations (snd (handleBuildRunning world_running))
  = notified (sample_kit "" IntegrationKitPhaseBuildRunning) <$> waiting.
Proof.
  assert (Hquiet : faultless world_running) by apply Forall_nil_2.
  split; [exact Hquiet|].
  destruct (succeeded_build_readies_kit_and_notifies world_running
              (sample_build BuildPhaseSucceeded)
              (sample_kit "" IntegrationKitPhaseBuildRunning)
              Hquiet waiting_well_keyed eq_refl eq_refl eq_refl eq_refl)
    as (Hok & _ & Hints & _).
  split; [exact Hok | exact Hints].
Defined.

Lemma notification_reaches_every_bound_integration_witness :
  faultless world_ready /\
  fst (informIntegrations (sample_kit "" IntegrationKitPhaseReady) world_ready)
  = Ok tt /\
  integrations (snd (informIntegrations (sample_kit "" IntegrationKitPhaseReady)
                                        world_ready))
  = notified (sample_kit "" IntegrationKitPhaseReady) <$> waiting.
Proof.
  assert (Hquiet : faultless world_ready) by apply Forall_nil_2.
  split; [exact Hquiet|].
  exact (notification_reaches_every_bound_integration
           (sample_kit "" IntegrationKitPhaseReady) world_ready
           waiting_well_keyed Hquiet).
Defined.

Lemma notification_is_idempotent_witness :
  let once :=
    snd (informIntegrations (sample_kit "" IntegrationKitPhaseReady) world_ready) in
  integrations
    (snd (informIntegrations (sample_kit "" IntegrationKitPhaseReady)
                             (with_ambient [quiet] once)))
  = integrations once.
Proof.
  apply (notification_is_idempotent (sample_kit "" IntegrationKitPhaseReady)
           world_ready [quiet] waiting_well_keyed (Forall_nil_2 _)).
  apply Forall_cons. split; [reflexivity | apply Forall_nil_2].
Defined.

Lemma fetch_error_stops_submission_witness :
  fst (step_ambient world_unreachable) = Some "timeout" /\
  fst (handleBuildSubmitted (sample_Apply (Some sample_catalog)) world_unreachable)
  = Err (ErrTransient "timeout") /\
  builds (snd (handleBuildSubmitted (sample_Apply (Some sample_catalog))
                                    world_unreachable))
  = builds world_unreachable.
Proof.
  split; [reflexivity|].
  destruct (fetch_error_stops_submission (sample_Apply (Some sample_catalog))
              world_unreachable "timeout" eq_refl)
    as (Herr & _ & Hbuilds & _).
  split; [exact Herr | exact Hbuilds].
Defined.

Lemma composition_error_is_returned_witness :
  absent_or_terminal world_submitted ("ns", "kit-a") /\
  fst (handleBuildSubmitted failing_Apply world_submitted)
  = Err (ErrNew "no platform found") /\
  builds (snd (handleBuildSubmitted failing_Apply world_submitted)) = ∅.
Proof.
  assert (Habsent : absent_or_terminal world_submitted ("ns", "kit-a")) by exact I.
  split; [exact Habsent|].
  destruct (composition_error_is_returned failing_Apply world_submitted
              (ErrNew "no platform found") eq_refl Habsent eq_refl)
    as (Herr & _ & Hbuilds & _).
  split; [exact Herr | exact Hbuilds].
Defined.

Lemma created_build_snapshots_the_kit_witness :
  faultless world_submitted /\
  exists b,
    builds (snd (handleBuildSubmitted (sample_Apply (Some sample_catalog))
                                      world_submitted))
    = <[("ns", "kit-a") := b]> ∅ /\
    BuildSpec_Dependencies (Build_Spec b) = ["camel:core"] /\
    BuildSpec_Steps (Build_Spec b)
    = ["generate-project"; "inject-dependencies"; "sanitize-dependencies";
       "compute-dependencies"; "list-artifacts"; "incremental-packager";
       "publisher/kaniko"] /\
    OwnerReferences (Build_ObjectMeta b) = [("IntegrationKit", "kit-a")].
Proof.
  assert (Hquiet : faultless world_submitted) by apply Forall_nil_2.
  split; [exact Hquiet|].
  destruct (created_build_snapshots_the_kit (sample_Apply (Some sample_catalog))
              world_submitted (sample_env (Some sample_catalog))
              (sample_kit "" IntegrationKitPhaseBuildSubmitted) sample_catalog
              sample_platform Hquiet I eq_refl eq_refl eq_refl eq_refl)
    as (b & _ & Hstore & _ & Howner & _ & Hspec).
  exists b. split; [exact Hstore|].
  rewrite Hspec. split; [reflexivity|]. split; [reflexivity | exact Howner].
Defined.

Lemma delete_failure_stops_the_rebuild_witness :
  absent_or_terminal world_delete_refused ("ns", "kit-a") /\
  fst (handleBuildSubmitted (sample_Apply (Some sample_catalog)) world_delete_refused)
  = Err (ErrWrap (ErrTransient "forbidden") "cannot delete build") /\
  builds (snd (handleBuildSubmitted (sample_Apply (Some sample_catalog))
                                    world_delete_refused))
  = store_succeeded.
Proof.
  assert (Hterminal : absent_or_terminal world_delete_refused ("ns", "kit-a")).
  { right. right. reflexivity. }
  split; [exact Hterminal|].
  destruct (delete_failure_stops_the_rebuild (sample_Apply (Some sample_catalog))
              world_delete_refused (sample_env (Some sample_catalog))
              (sample_kit "" IntegrationKitPhaseBuildSubmitted) sample_catalog
              sample_platform quiet (refused "forbidden") [] "forbidden"
              eq_refl eq_refl eq_refl Hterminal eq_refl eq_refl eq_refl eq_refl)
    as (Herr & _ & Hbuilds & _).
  split; [exact Herr | exact Hbuilds].
Defined.

Lemma create_failure_leaves_no_build_witness :
  absent_or_terminal world_create_refused ("ns", "kit-a") /\
  fst (handleBuildSubmitted (sample_Apply (Some sample_catalog)) world_create_refused)
  = Err (ErrWrap (ErrTransient "quota exceeded") "cannot create build") /\
  builds (snd (handleBuildSubmitted (sample_Apply (Some sample_catalog))
                                    world_create_refused)) !! ("ns", "kit-a")
  = None.
Proof.
  assert (Hterminal : absent_or_terminal world_create_refused ("ns", "kit-a")).
  { right. right. reflexivity. }
  split; [exact Hterminal|].
  destruct (create_failure_leaves_no_build (sample_Apply (Some sample_catalog))
              world_create_refused (sample_env (Some sample_catalog))
              (sample_kit "" IntegrationKitPhaseBuildSubmitted) sample_catalog
              sample_platform quiet quiet (refused "quota exceeded") []
              "quota exceeded"
              eq_refl eq_refl eq_refl eq_refl Hterminal eq_refl eq_refl eq_refl
              eq_refl)
    as (Herr & Hbuilds & _).
  split; [exact Herr|]. rewrite Hbuilds. apply lookup_delete_eq.
Defined.

Lemma running_build_hands_over_to_monitoring_witness :
  faultless world_observed /\
  exists stored,
    kits (snd (handleBuildSubmitted (sample_Apply (Some sample_catalog))
                                    world_observed)) !! ("ns", "kit-a")
    = Some stored /\
    KitStatus_Phase (Kit_Status stored) = IntegrationKitPhaseBuildRunning.
Proof.
  assert (Hquiet : faultless world_observed) by apply Forall_nil_2.
  split; [exact Hquiet|].
  destruct (running_build_hands_over_to_monitoring
              (sample_Apply (Some sample_catalog)) world_observed
              (sample_build BuildPhaseRunning)
              (sample_kit "" IntegrationKitPhaseBuildSubmitted)
              Hquiet eq_refl eq_refl eq_refl)
    as (stored & _ & Hstored & Hstatus & _).
  exists stored. split; [exact Hstored|]. now rewrite Hstatus.
Defined.


Lemma initialized_kit_is_handed_over_witness :
  platform_ready world_imported "ns" = Ok sample_platform /\
  exists stored,
    kits (snd (initializeAction_Handle (sample_Apply None) platform_ready
                                       sample_digest world_imported))
    !! ("ns", "kit-a") = Some stored /\
    initializeAction_CanHandle stored = false /\
    buildAction_CanHandle stored = false.
Proof.
  split; [reflexivity|].
  destruct (initialized_kit_is_handed_over (sample_Apply None) platform_ready
              sample_digest world_imported sample_platform eq_refl eq_refl)
    as (stored & Hstored & Hspec & Hinit & Hbuild & _).
  exists stored. split; [exact Hstored|]. split; [exact Hinit|].
  rewrite Hbuild, Hspec. reflexivity.
Defined.

(** *** Runs of the handlers *)

Example conflict_message :
  fst (buildAction_Handle (sample_Apply None) world_edited)
  = Err (ErrNew "found kit kit-a not in the expected phase (expectd=BuildRunning, found=Ready)").
Proof. reflexivity. Qed.

Example imported_kit_is_ready :
  let run := initializeAction_Handle (sample_Apply None) platform_ready
                                     sample_digest world_imported in
  fst run = Ok tt /\
  Kit_Status <$> kits (snd run) !! ("ns", "kit-a")
  = Some {| KitStatus_Phase := IntegrationKitPhaseReady; KitStatus_BaseImage := "";
            KitStatus_Image := "img:0"; KitStatus_PublicImage := "";
            KitStatus_Digest := "v1:img:0"; KitStatus_Artifacts := [];
            KitStatus_Failure := None |} /\
  builds (snd run) = ∅.
Proof. vm_compute. auto. Qed.

Example notification_stops_at_first_failure :
  let run := informIntegrations (sample_kit "" IntegrationKitPhaseReady) world_flaky in
  fst run = Err (ErrTransient "conflict") /\
  map snd (log (snd run)) = [None; None; Some (ErrTransient "conflict")] /\
  integrations (snd run) !! ("ns", "it-3")
  = Some (sample_integration "it-3" "kit-a" IntegrationPhaseResolvingKit) /\
  integrations (snd run) !! ("ns", "it-1")
  = Some (sample_integration "it-1" "kit-a" "WaitingForKit").
Proof. vm_compute. auto. Qed.

Example submitted_pass_creates_and_waits :
  let run := handleBuildSubmitted (sample_Apply (Some sample_catalog)) world_submitted in
  fst run = Ok tt /\
  map (fun c => (is_delete c, is_create c, is_kit_write c)) (log (snd run))
  = [(false, false, false); (false, false, false);
     (true, false, false); (false, true, false)] /\
  kits (snd run) = kits world_submitted.
Proof. vm_compute. auto. Qed.

Example kaniko_pipeline_has_seven_steps :
  length <$> compose_steps sample_steps
               (platform_of IntegrationPlatformClusterKubernetes
                            IntegrationPlatformBuildPublishStrategyKaniko)
               (Some (sample_kit "" IntegrationKitPhaseBuildSubmitted))
  = Some 7.
Proof. reflexivity. Qed.

Example unset_phase_composes_nothing :
  compose_steps sample_steps (Platform_Spec sample_platform)
                (Some (sample_kit "" "")) = Some [] /\
  compose_steps sample_steps (Platform_Spec sample_platform) None = Some [].
Proof. split; reflexivity. Qed.
